(** * Banking AI Assistant: the chat round, SQL extraction and the batch test harness

    A shallow embedding of [src/app/main.py] (the Streamlit chat script) and
    [test/test_executor.py] (the batch harness and its report statistics),
    followed by the properties of the specification stated over it.

    Conventions of the embedding.
    - A Python [str] is a [list ascii]; a character is a code point below 256.
      [isspace] and [lower_char] follow Python on that range.
    - An exception is identified with its message, the value of [str(e)].
    - The inference service and the relational store are oracles (section
      variables); every call to the store is recorded in the world.
    - A Python [float] is a binary64 number ([PrimFloat.float]) and the
      operators round as IEEE 754 does; [sum] adds from left to right, one
      rounding per addition (CPython before the compensated sum of 3.12).  An
      [int] is converted exactly (counts stay far below 2^53).  The clock and
      the elapsed time of a test case are kept as exact rationals;
      [seconds_as_float] is the rounding that [total_seconds()] applies.
    - [print] calls, spinners and the re-rendering of the history write
      nothing that the program reads back and are left out.
    - The API key is present, so that [llm] and [run_agent] are defined.
    - A script run that ends in an uncaught exception keeps the changes it
      made to the session state before the exception. *)

From Stdlib Require Import List Ascii String Bool Arith ZArith Lia QArith Lqa.
From Stdlib Require Import PrimFloat Uint63.
Import ListNotations.
Close Scope Q_scope.
Open Scope nat_scope.
Open Scope list_scope.

Set Implicit Arguments.

(** ** Python strings *)

Abbreviation str := (list ascii) (only parsing).

Definition py (s : string) : str := list_ascii_of_string s.
Arguments py s%_string.

Fixpoint str_eqb (a b : str) : bool :=
  match a, b with
  | [], [] => true
  | x :: a', y :: b' => Ascii.eqb x y && str_eqb a' b'
  | _, _ => false
  end.

(** [str.isspace] on one character: TAB..CR, FS..US, space, NEL and NBSP. *)
Definition isspace (c : ascii) : bool :=
  let n := nat_of_ascii c in
  ((9 <=? n) && (n <=? 13)) || ((28 <=? n) && (n <=? 32))
  || (n =? 133) || (n =? 160).

(** [str.lower] on one character: A..Z and the Latin-1 capitals. *)
Definition lower_char (c : ascii) : ascii :=
  let n := nat_of_ascii c in
  if ((65 <=? n) && (n <=? 90))
     || ((192 <=? n) && (n <=? 222) && negb (n =? 215))
  then ascii_of_nat (n + 32) else c.

Definition lower (s : str) : str := map lower_char s.

Fixpoint dropwhile (p : ascii -> bool) (s : str) : str :=
  match s with
  | [] => []
  | c :: s' => if p c then dropwhile p s' else s
  end.

Definition lstrip (s : str) : str := dropwhile isspace s.
Definition rstrip (s : str) : str := rev (dropwhile isspace (rev s)).

(** [s.strip()] *)
Definition strip (s : str) : str := rstrip (lstrip s).

(** [s.startswith(prefix)] *)
Fixpoint startswith (s prefix : str) {struct prefix} : bool :=
  match prefix, s with
  | [], _ => true
  | p :: prefix', c :: s' => Ascii.eqb c p && startswith s' prefix'
  | _ :: _, [] => false
  end.

(** [s.endswith(suffix)] *)
Definition endswith (s suffix : str) : bool := startswith (rev s) (rev suffix).

(** [sub in s] *)
Fixpoint contains (sub s : str) : bool :=
  startswith s sub
  || match s with
     | [] => false
     | _ :: s' => contains sub s'
     end.

(** [s.replace(old, new)]: the occurrences of [old] are replaced from left to
    right without overlap; [skip] counts the characters of the occurrence
    being consumed. *)
Fixpoint replace_from (old new : str) (skip : nat) (s : str) : str :=
  match s with
  | [] => []
  | c :: s' =>
      match skip with
      | S k => replace_from old new k s'
      | O => if startswith s old
             then new ++ replace_from old new (List.length old - 1) s'
             else c :: replace_from old new 0 s'
      end
  end.

Definition replace (old new s : str) : str :=
  match old with
  | [] => new ++ flat_map (fun c => c :: new) s
  | _ :: _ => replace_from old new 0 s
  end.

(** Truthiness of a value that is [None] or a string. *)
Definition truthy (o : option str) : bool :=
  match o with
  | Some (_ :: _) => true
  | _ => false
  end.

(** ** The regular expression [SELECT .*] under IGNORECASE | DOTALL *)

(** The literal part of the pattern, with its space. *)
Definition SELECT_LITERAL : str := py "SELECT ".

(** The literal matches at the head of [s], letter case ignored. *)
Fixpoint ci_prefix (pat s : str) {struct pat} : bool :=
  match pat, s with
  | [], _ => true
  | p :: pat', c :: s' =>
      Ascii.eqb (lower_char p) (lower_char c) && ci_prefix pat' s'
  | _ :: _, [] => false
  end.

(** [re.search]: the start of the leftmost match.  With DOTALL the [.*]
    takes the rest of the text, so the match is the suffix from that index. *)
Fixpoint re_search (pat s : str) {struct s} : option nat :=
  if ci_prefix pat s then Some 0
  else match s with
       | [] => None
       | _ :: s' => option_map S (re_search pat s')
       end.

(** [match.group(0)] *)
Definition group0 (s : str) (start : nat) : str := skipn start s.

(** ** SQL extraction (main.py 147-150, test_executor.py 142-145) *)

Definition candidate (response : str) : str :=
  match re_search SELECT_LITERAL response with
  | Some i => strip (group0 response i)
  | None => strip response
  end.

Definition extract_sql (response : str) : str :=
  let sql := candidate response in
  if endswith sql (py ";") then removelast sql else sql.

(** The clarification marker tested with [startswith]. *)
Definition CLARIFICATION_MARKER : str := py "CLARIFICATION:".

(** ** Effects: a state and exception monad over a world [W] *)

Inductive result (A : Type) : Type :=
| Ret (a : A)
| Raise (e : str).
Arguments Raise {A} e.

Definition M (W A : Type) : Type := W -> result A * W.

Definition ret {W A} (a : A) : M W A := fun w => (Ret a, w).

Definition raise {W A} (e : str) : M W A := fun w => (Raise e, w).

Definition bind {W A B} (m : M W A) (k : A -> M W B) : M W B :=
  fun w => match m w with
           | (Ret a, w') => k a w'
           | (Raise e, w') => (Raise e, w')
           end.

(** [try: m except Exception as e: h(e)] *)
Definition try_except {W A} (m : M W A) (h : str -> M W A) : M W A :=
  fun w => match m w with
           | (Ret a, w') => (Ret a, w')
           | (Raise e, w') => h e w'
           end.

Definition modify {W} (f : W -> W) : M W unit := fun w => (Ret tt, f w).

Definition lift {W A} (r : result A) : M W A := fun w => (r, w).

Declare Scope py_scope.
Delimit Scope py_scope with py.
Notation "x <- m ;; k" := (bind m (fun x => k))
  (at level 100, m at next level, right associativity) : py_scope.
Notation "m ;;; k" := (bind m (fun _ => k))
  (at level 100, right associativity) : py_scope.

(** ** Python numbers *)

(** A number is an [int] or a [float]. *)
Inductive pynum : Type :=
| PyInt (z : Z)
| PyFloat (f : float).

(** [float(z)] *)
Definition float_of_int (z : Z) : float :=
  if (z <? 0)%Z then PrimFloat.opp (PrimFloat.of_uint63 (Uint63.of_Z (- z)))
  else PrimFloat.of_uint63 (Uint63.of_Z z).

Definition to_float (x : pynum) : float :=
  match x with
  | PyInt z => float_of_int z
  | PyFloat f => f
  end.

Definition ZERO_DIVISION : str := py "division by zero".
Definition FLOAT_ZERO_DIVISION : str := py "float division by zero".

(** [a / b]: true division; a zero divisor raises ZeroDivisionError. *)
Definition py_truediv (a b : pynum) : result pynum :=
  match b with
  | PyInt y =>
      if (y =? 0)%Z
      then Raise (match a with
                  | PyInt _ => ZERO_DIVISION
                  | PyFloat _ => FLOAT_ZERO_DIVISION
                  end)
      else Ret (PyFloat (PrimFloat.div (to_float a) (float_of_int y)))
  | PyFloat y =>
      if PrimFloat.eqb y 0
      then Raise FLOAT_ZERO_DIVISION
      else Ret (PyFloat (PrimFloat.div (to_float a) y))
  end.

(** [a * b] *)
Definition py_mul (a b : pynum) : pynum :=
  match a, b with
  | PyInt x, PyInt y => PyInt (x * y)
  | _, _ => PyFloat (PrimFloat.mul (to_float a) (to_float b))
  end.

(** [a + b] *)
Definition py_add (a b : pynum) : pynum :=
  match a, b with
  | PyInt x, PyInt y => PyInt (x + y)
  | _, _ => PyFloat (PrimFloat.add (to_float a) (to_float b))
  end.

(** [sum(xs)]: from the int 0, left to right. *)
Definition py_sum (xs : list pynum) : pynum := fold_left py_add xs (PyInt 0).

(** The float of a number of seconds given as a quotient of integers, as
    [timedelta.total_seconds()] divides microseconds by 10**6. *)
Definition seconds_as_float (t : Q) : float :=
  let r := Qred t in
  PrimFloat.div (float_of_int (Qnum r)) (float_of_int (Zpos (Qden r))).

(** A data frame: its rows. [len(df)] is the number of rows. *)
Definition DataFrame := list (list str).

(** Messages sent to the inference service. *)
Inductive Message : Type :=
| SystemMessage (text : str)
| HumanMessage (text : str)
| AIMessage (text : str).

Definition message_content (m : Message) : str :=
  match m with
  | SystemMessage t | HumanMessage t | AIMessage t => t
  end.

(** [l[i] = x] for an index in range; out of range the list is returned as
    it is (the callers below only write inside the list). *)
Fixpoint list_set {A} (i : nat) (x : A) (l : list A) : list A :=
  match l, i with
  | [], _ => []
  | _ :: l', O => x :: l'
  | y :: l', S j => y :: list_set j x l'
  end.

(** ** The chat script, [src/app/main.py] *)

Module App.

(** One stored message, the dict with keys "role" and "content". *)
Record Turn : Type := { role : str; content : str }.

(** One entry of [st.session_state.results]. *)
Record QueryResult : Type := { sql : str; data : DataFrame }.

(** What a script run writes to the page. *)
Inductive UiEvent : Type :=
| UiMarkdown (text : str)
| UiCode (text : str)
| UiError (text : str)
| UiWarning (text : str).

Record World : Type := {
  messages : list Turn;          (* st.session_state.messages *)
  results : list QueryResult;    (* st.session_state.results *)
  page : list UiEvent;           (* widgets written by this run *)
  store_calls : list str         (* statements sent to the database *)
}.

Definition set_messages (ms : list Turn) (w : World) : World :=
  {| messages := ms; results := results w; page := page w;
     store_calls := store_calls w |}.

Definition append_message (t : Turn) : M World unit :=
  modify (fun w => set_messages (messages w ++ [t]) w).

Definition append_result (r : QueryResult) : M World unit :=
  modify (fun w => {| messages := messages w; results := results w ++ [r];
                      page := page w; store_calls := store_calls w |}).

Definition show (e : UiEvent) : M World unit :=
  modify (fun w => {| messages := messages w; results := results w;
                      page := page w ++ [e]; store_calls := store_calls w |}).

Definition record_store_call (query : str) : M World unit :=
  modify (fun w => {| messages := messages w; results := results w;
                      page := page w; store_calls := store_calls w ++ [query] |}).

Definition get_messages : M World (list Turn) := fun w => (Ret (messages w), w).

Definition WARNING_MESSAGE : str :=
  py "Could not generate a response. Please try rephrasing your question.".

Definition INDEX_ERROR : str := py "list index out of range".

(** main.py 118: ["clarification" in content.lower()] *)
Definition mentions_clarification (text : str) : bool :=
  contains (py "clarification") (lower text).

Section Script.

Variable system_prompt : str.
(** [llm.invoke(messages).content], or the exception it raises. *)
Variable llm_invoke : list Message -> result str.
(** [sqlite3.connect] and [pd.read_sql_query], or the exception raised. *)
Variable read_sql_query : str -> result DataFrame.

(** main.py 26-32: no handler here, a failure of the store propagates. *)
Definition run_query (query : str) : M World DataFrame :=
  (record_store_call query ;;; lift (read_sql_query query))%py.

(** main.py 65-67, the only node of the graph. *)
Definition call_llm (state : list Message) : result (list Message) :=
  match llm_invoke (SystemMessage system_prompt :: state) with
  | Ret response => Ret (state ++ [AIMessage response])
  | Raise e => Raise e
  end.

(** [event["messages"][-1].content] *)
Definition last_content (ms : list Message) : result str :=
  match rev ms with
  | m :: _ => Ret (message_content m)
  | [] => Raise INDEX_ERROR
  end.

(** main.py 75-80: the stream yields the input values and then the values
    after the node; the loop keeps the content of the last message of the
    last event. *)
Definition run_agent (messages : list Message) : result (option str) :=
  match last_content messages with
  | Raise e => Raise e
  | Ret first =>
      match call_llm messages with
      | Raise e => Raise e
      | Ret out =>
          match last_content out with
          | Raise e => Raise e
          | Ret response => Ret (Some response)
          end
      end
  end.

(** main.py 133-137 *)
Fixpoint api_history (ms : list Turn) : list Message :=
  match ms with
  | [] => []
  | msg :: ms' =>
      if str_eqb (role msg) (py "user")
      then HumanMessage (content msg) :: api_history ms'
      else if str_eqb (role msg) (py "assistant")
      then AIMessage (content msg) :: api_history ms'
      else api_history ms'
  end.

(** main.py 116-121: the value is what [user_input] holds afterwards. *)
Definition clarification_chaining (user_input : str) : M World (option str) :=
  fun w =>
    let msgs := messages w in
    let n := List.length msgs in
    if 2 <=? n then
      match nth_error msgs (n - 1), nth_error msgs (n - 2) with
      | Some last_assistant, Some previous =>
          if mentions_clarification (content last_assistant)
          then (Ret None,
                set_messages
                  (list_set (n - 2)
                     {| role := role previous;
                        content := content previous ++ py " " ++ user_input |}
                     msgs) w)
          else (Ret (Some user_input), w)
      | _, _ => (Raise INDEX_ERROR, w)
      end
    else (Ret (Some user_input), w).

(** main.py 123-126 *)
Definition store_user_turn (user_input : option str) : M World unit :=
  match user_input with
  | Some (c :: s) =>
      (append_message {| role := py "user"; content := c :: s |} ;;;
       show (UiMarkdown (c :: s)))%py
  | _ => ret tt
  end.

(** main.py 141-167 *)
Definition handle_response (response_from_model : option str) : M World unit :=
  match response_from_model with
  | Some (c :: s) =>
      let response := c :: s in
      if startswith response CLARIFICATION_MARKER then
        let clarification_text :=
          strip (replace CLARIFICATION_MARKER [] response) in
        (show (UiMarkdown clarification_text) ;;;
         append_message {| role := py "assistant";
                           content := clarification_text |})%py
      else
        let sql := extract_sql response in
        (show (UiCode sql) ;;;
         try_except
           (result_df <- run_query sql ;;
            append_result {| sql := sql; data := result_df |} ;;;
            append_message {| role := py "assistant"; content := sql |})
           (fun e =>
              let error_message := py "Error running query: " ++ e in
              show (UiError error_message) ;;;
              append_message {| role := py "assistant";
                                content := error_message |}))%py
  | _ =>
      (show (UiWarning WARNING_MESSAGE) ;;;
       append_message {| role := py "assistant";
                         content := WARNING_MESSAGE |})%py
  end.

(** main.py 116-126 *)
Definition accept_user_input (user_input : str) : M World unit :=
  (remaining <- clarification_chaining user_input ;;
   store_user_turn remaining)%py.

(** main.py 113-167, the body run for a submitted text. *)
Definition on_chat_input (user_input : str) : M World unit :=
  (accept_user_input user_input ;;;
   msgs <- get_messages ;;
   let api_messages := SystemMessage system_prompt :: api_history msgs in
   response_from_model <- lift (run_agent api_messages) ;;
   handle_response response_from_model)%py.

(** One run of the script: [st.chat_input] gives [None] until a text is
    submitted. *)
Definition script_run (chat_input : option str) : M World unit :=
  match chat_input with
  | Some (c :: s) => on_chat_input (c :: s)
  | _ => ret tt
  end.

End Script.

(** main.py 89-92: the "Clear Chat History" button empties both logs before
    the script is run again. *)
Definition clear_chat_history : M World unit :=
  modify (fun w => {| messages := []; results := []; page := page w;
                      store_calls := store_calls w |}).

End App.

(** ** The batch harness, [test/test_executor.py] *)

Module TestExec.

Record TestResult : Type := {
  test_id : str;
  query : str;
  generated_sql : str;
  execution_status : str;
  execution_time : Q;
  result_count : nat;
  error_message : option str;
  clarification_requested : bool
}.

Record World : Type := {
  store_calls : list str;   (* statements sent to the database *)
  clock_reads : nat         (* calls of datetime.datetime.now() so far *)
}.

Definition PASSED : str := py "PASSED".
Definition FAILED : str := py "FAILED".
Definition CLARIFICATION_REQUESTED : str := py "CLARIFICATION_REQUESTED".

Section Executor.

Variable system_prompt : str.
Variable llm_invoke : list Message -> result str.
Variable read_sql_query : str -> result DataFrame.
(** The successive readings of the clock, in seconds. *)
Variable now : nat -> Q.
(** [os.path.exists] of the database path and of the alternative path,
    and the two paths as printed. *)
Variables db_path_exists alt_db_path_exists : bool.
Variables db_abspath alt_db_path : str.

Definition datetime_now : M World Q :=
  fun w => (Ret (now (clock_reads w)),
            {| store_calls := store_calls w;
               clock_reads := S (clock_reads w) |}).

Definition record_store_call (q : str) : M World unit :=
  modify (fun w => {| store_calls := store_calls w ++ [q];
                      clock_reads := clock_reads w |}).

(** test_executor.py 77-106 *)
Definition run_query (q : str) : M World (option DataFrame * option str) :=
  if negb db_path_exists && negb alt_db_path_exists then
    ret (None,
         Some (py "Database not found at: " ++ db_abspath
               ++ py " or " ++ alt_db_path))
  else
    try_except
      (df <- (record_store_call q ;;; lift (read_sql_query q)) ;;
       ret (Some df, None))%py
      (fun e => ret (None, Some e)).

(** test_executor.py 108-118 *)
Definition generate_sql (natural_query : str) : M World str :=
  try_except
    (lift (llm_invoke [SystemMessage system_prompt;
                       HumanMessage natural_query]))
    (fun e => ret (py "Error generating SQL: " ++ e)).

(** test_executor.py 120-170 *)
Definition execute_test_case (tid q : str) : M World TestResult :=
  (start_time <- datetime_now ;;
   ai_response <- generate_sql q ;;
   if startswith ai_response CLARIFICATION_MARKER then
     end_time <- datetime_now ;;
     ret {| test_id := tid; query := q; generated_sql := ai_response;
            execution_status := CLARIFICATION_REQUESTED;
            execution_time := (end_time - start_time)%Q;
            result_count := 0; error_message := None;
            clarification_requested := true |}
   else
     let sql := extract_sql ai_response in
     r <- run_query sql ;;
     end_time <- datetime_now ;;
     let execution_time := (end_time - start_time)%Q in
     if truthy (snd r) then
       ret {| test_id := tid; query := q; generated_sql := sql;
              execution_status := FAILED;
              execution_time := execution_time;
              result_count := 0; error_message := snd r;
              clarification_requested := false |}
     else
       ret {| test_id := tid; query := q; generated_sql := sql;
              execution_status := PASSED;
              execution_time := execution_time;
              result_count := match fst r with
                              | Some result_df => List.length result_df
                              | None => 0
                              end;
              error_message := None;
              clarification_requested := false |})%py.

(** test_executor.py 361-379: the loop of [main]; a case is the pair of its
    "Test Case ID" and its "Natural Language Query", and each result is
    appended to [test_results]. *)
Fixpoint execute_all (cases : list (str * str)) (test_results : list TestResult)
  : M World (list TestResult) :=
  match cases with
  | [] => ret test_results
  | (tid, q) :: rest =>
      (r <- execute_test_case tid q ;;
       execute_all rest (test_results ++ [r]))%py
  end.

(** A cell of the sheet of test cases as [iterrows] gives it: a text, or
    another value (a number, a date, an empty cell), given by its [str()]
    and by the message of the exception that slicing it raises. *)
Inductive Cell : Type :=
| Text (s : str)
| NotText (as_str : str) (slice_error : str).

(** [str(cell)] *)
Definition cell_str (c : Cell) : str :=
  match c with
  | Text s => s
  | NotText as_str _ => as_str
  end.

(** test_executor.py 365-379 on the rows of the sheet: the identifier is
    converted with [str], the query is not, and the progress line slices the
    query ([query[:70]], [len(query)]) before the case is executed. *)
Fixpoint execute_rows (rows : list (Cell * Cell))
    (test_results : list TestResult) : M World (list TestResult) :=
  match rows with
  | [] => ret test_results
  | (id_cell, query_cell) :: rest =>
      match query_cell with
      | Text query =>
          (r <- execute_test_case (cell_str id_cell) query ;;
           execute_rows rest (test_results ++ [r]))%py
      | NotText _ slice_error => raise slice_error
      end
  end.

(** test_executor.py 347: the statement of the connectivity check. *)
Definition CONNECTIVITY_QUERY : str :=
  py "SELECT name FROM sqlite_master WHERE type='table' LIMIT 10".

(** test_executor.py 345-379: [main] from the connectivity check to the end
    of the loop; [None] is the early [return] taken when the check reports
    an error. *)
Definition verify_and_execute (cases : list (str * str))
  : M World (option (list TestResult)) :=
  (probe <- run_query CONNECTIVITY_QUERY ;;
   if truthy (snd probe) then ret None
   else
     test_results <- execute_all cases [] ;;
     ret (Some test_results))%py.

End Executor.

(** The dict returned by [generate_summary_stats]. *)
Record Summary : Type := {
  total_tests : nat;
  passed : nat;
  failed : nat;
  clarification_count : nat;      (* key "clarification_requested" *)
  pass_rate : pynum;
  average_execution_time : pynum
}.

Definition count_status (status : str) (rs : list TestResult) : nat :=
  List.length (filter (fun r => str_eqb (execution_status r) status) rs).

(** [len(xs)] as a number. *)
Definition py_len (n : nat) : pynum := PyInt (Z.of_nat n).

(** The values of [r.execution_time for r in self.test_results]. *)
Definition execution_times (rs : list TestResult) : list pynum :=
  map (fun r => PyFloat (seconds_as_float (execution_time r))) rs.

(** test_executor.py 177-193; the result is an exception when a division
    raises. *)
Definition generate_summary_stats (test_results : list TestResult)
  : result Summary :=
  let total_tests := List.length test_results in
  let passed := count_status PASSED test_results in
  let failed := count_status FAILED test_results in
  let clarification := count_status CLARIFICATION_REQUESTED test_results in
  match (if 0 <? total_tests
         then py_truediv (py_sum (execution_times test_results))
                (py_len total_tests)
         else Ret (PyInt 0)) with
  | Raise e => Raise e
  | Ret avg_execution_time =>
      match (if 0 <? total_tests
             then match py_truediv (py_len passed) (py_len total_tests) with
                  | Ret quotient => Ret (py_mul quotient (PyInt 100))
                  | Raise e => Raise e
                  end
             else Ret (PyInt 0)) with
      | Raise e => Raise e
      | Ret rate =>
          Ret {| total_tests := total_tests;
                 passed := passed;
                 failed := failed;
                 clarification_count := clarification;
                 pass_rate := rate;
                 average_execution_time := avg_execution_time |}
      end
  end.

(** test_executor.py 218-220: the lambda that shortens the Generated_SQL
    column for the HTML table. *)
Definition truncate_sql (x : str) : str :=
  if 150 <? List.length x then firstn 150 x ++ py "..." else x.

(** test_executor.py 268: the colour of the success rate in the HTML
    summary. *)
Definition success_rate_color (rate : Q) : str :=
  if Qle_bool 80 rate then py "#28a745"
  else if Qle_bool 60 rate then py "#ffc107"
  else py "#dc3545".

(** The five messages of a rating, best first.  The HTML indicator
    (test_executor.py 274) prints OUTSTANDING PERFORMANCE, EXCELLENT
    PERFORMANCE, GOOD PERFORMANCE, NEEDS IMPROVEMENT, REQUIRES OPTIMIZATION;
    [main] (test_executor.py 413-422) prints WORLD-CLASS, EXCELLENT, GOOD,
    FAIR, NEEDS DEVELOPMENT. *)
Inductive Rating : Type :=
| WORLD_CLASS
| EXCELLENT
| GOOD
| FAIR
| NEEDS_DEVELOPMENT.

(** test_executor.py 413-422 *)
Definition performance_category (rate : Q) : Rating :=
  if Qle_bool 90 rate then WORLD_CLASS
  else if Qle_bool 80 rate then EXCELLENT
  else if Qle_bool 70 rate then GOOD
  else if Qle_bool 60 rate then FAIR
  else NEEDS_DEVELOPMENT.

(** test_executor.py 274 *)
Definition performance_indicator (rate : Q) : Rating :=
  if Qle_bool 90 rate then WORLD_CLASS
  else if Qle_bool 80 rate then EXCELLENT
  else if Qle_bool 70 rate then GOOD
  else if Qle_bool 60 rate then FAIR
  else NEEDS_DEVELOPMENT.

End TestExec.

(** ** Notions used in the statements *)

(** A text that does not begin, or does not end, with white space. *)
Definition starts_clean (s : str) : Prop :=
  forall c t, s = c :: t -> isspace c = false.

Definition ends_clean (s : str) : Prop :=
  forall c t, rev s = c :: t -> isspace c = false.

(** The text ends neither in a terminator nor in white space. *)
Definition settled (s : str) : bool :=
  match rev s with
  | c :: _ => negb (isspace c) && negb (Ascii.eqb c ";")
  | [] => true
  end.

(** White space then optionally one terminator, read from the right: what
    the extractor cuts off the end of the matched text. *)
Definition cut_tail (x : str) : Prop :=
  exists sp, forallb isspace sp = true /\ (x = sp \/ x = ";"%char :: sp).

(** What the inference service is sent once the user's text is stored:
    the system prompt of [api_messages] behind the one [call_llm] adds. *)
Definition request_of (system_prompt : str) (w : App.World) : list Message :=
  SystemMessage system_prompt
    :: SystemMessage system_prompt :: App.api_history (App.messages w).

(** The invariant of the data model on one result. *)
Definition consistent (r : TestExec.TestResult) : Prop :=
  (TestExec.execution_status r = TestExec.CLARIFICATION_REQUESTED
   <-> TestExec.clarification_requested r = true)
  /\ (TestExec.execution_status r <> TestExec.PASSED
      -> TestExec.result_count r = 0).

(** The world after a statement is sent to the store, and after a clock
    reading. *)
Definition sent (q : str) (w : TestExec.World) : TestExec.World :=
  {| TestExec.store_calls := TestExec.store_calls w ++ [q];
     TestExec.clock_reads := TestExec.clock_reads w |}.

Definition ticked (w : TestExec.World) : TestExec.World :=
  {| TestExec.store_calls := TestExec.store_calls w;
     TestExec.clock_reads := S (TestExec.clock_reads w) |}.

Definition database_found (db_path_exists alt_db_path_exists : bool) : bool :=
  negb (negb db_path_exists && negb alt_db_path_exists).

Definition not_found_message (db_abspath alt_db_path : str) : str :=
  py "Database not found at: " ++ db_abspath ++ py " or " ++ alt_db_path.

(** What [generate_sql] returns for a query. *)
Definition answer (system_prompt : str)
    (llm_invoke : list Message -> result str) (q : str) : str :=
  match llm_invoke [SystemMessage system_prompt; HumanMessage q] with
  | Ret response => response
  | Raise e => py "Error generating SQL: " ++ e
  end.

(** The elapsed time of a case whose first clock reading is in [w]. *)
Definition elapsed (now : nat -> Q) (w : TestExec.World) : Q :=
  (now (S (TestExec.clock_reads w)) - now (TestExec.clock_reads w))%Q.

(** Every stored turn has one of the two roles the script writes. *)
Definition well_roled (ms : list App.Turn) : Prop :=
  Forall (fun t => App.role t = py "user" \/ App.role t = py "assistant") ms.

(** The status is one of the three the harness writes. *)
Definition known_status (r : TestExec.TestResult) : Prop :=
  TestExec.execution_status r = TestExec.PASSED
  \/ TestExec.execution_status r = TestExec.FAILED
  \/ TestExec.execution_status r = TestExec.CLARIFICATION_REQUESTED.

(** The place of a rating, best first. *)
Definition rank (r : TestExec.Rating) : nat :=
  match r with
  | TestExec.WORLD_CLASS => 0
  | TestExec.EXCELLENT => 1
  | TestExec.GOOD => 2
  | TestExec.FAIR => 3
  | TestExec.NEEDS_DEVELOPMENT => 4
  end.

(** The query cell of a row is a text. *)
Definition text_query (row : TestExec.Cell * TestExec.Cell) : Prop :=
  exists q, snd row = TestExec.Text q.

(** A row as the pair of texts the loop passes on. *)
Definition as_case (row : TestExec.Cell * TestExec.Cell) : str * str :=
  (TestExec.cell_str (fst row), TestExec.cell_str (snd row)).

(** The number of results whose status is the given text. *)
Definition number_with_status (status : str) (rs : list TestExec.TestResult)
  : nat :=
  List.length
    (filter (fun r =>
               if list_eq_dec ascii_dec (TestExec.execution_status r) status
               then true else false) rs).

(** 0.0 + t1 + ... + tn, each addition rounded. *)
Fixpoint float_sum_from (acc : float) (ts : list float) : float :=
  match ts with
  | [] => acc
  | t :: ts' => float_sum_from (PrimFloat.add acc t) ts'
  end.

(** The execution times of the results, as floats. *)
Definition times_of (rs : list TestExec.TestResult) : list float :=
  map (fun r => seconds_as_float (TestExec.execution_time r)) rs.

(** A result with the given status and execution time. *)
Definition sample_result (status : str) (seconds : Q) : TestExec.TestResult :=
  {| TestExec.test_id := py "T"; TestExec.query := py "q";
     TestExec.generated_sql := py "SELECT 1";
     TestExec.execution_status := status;
     TestExec.execution_time := seconds;
     TestExec.result_count := 0;
     TestExec.error_message := None;
     TestExec.clarification_requested := false |}.

(** * Properties *)

(** ** Characters *)

Ltac each_ascii c :=
  destruct c as [[] [] [] [] [] [] [] []]; vm_compute; try congruence; auto.

Lemma s_match_not_space (c : ascii) :
  Ascii.eqb (lower_char "S") (lower_char c) = true -> isspace c = false.
Proof. each_ascii c. Qed.

(** ** [dropwhile] and the strip family *)

Lemma dropwhile_split p s :
  exists a, s = a ++ dropwhile p s /\ forallb p a = true.
Proof.
  induction s as [|c s [a [E F]]]; simpl.
  - exists []; auto.
  - destruct (p c) eqn:P.
    + exists (c :: a); simpl; rewrite P, F; split; [congruence | reflexivity].
    + exists []; auto.
Qed.

Lemma dropwhile_hd p s c t : dropwhile p s = c :: t -> p c = false.
Proof.
  induction s as [|x s IH]; simpl; [discriminate|].
  destruct (p x) eqn:P; auto.
  intros E; inversion E; subst; exact P.
Qed.

Lemma dropwhile_fix p c t : p c = false -> dropwhile p (c :: t) = c :: t.
Proof. intros P; simpl; rewrite P; reflexivity. Qed.

Lemma forallb_rev (p : ascii -> bool) a :
  forallb p a = true -> forallb p (rev a) = true.
Proof.
  rewrite !forallb_forall; intros H x Hx; apply H, in_rev, Hx.
Qed.

Lemma lstrip_fix s : starts_clean s -> lstrip s = s.
Proof.
  destruct s as [|c t]; [reflexivity|].
  intros H; apply dropwhile_fix, (H c t eq_refl).
Qed.

Lemma lstrip_starts_clean s : starts_clean (lstrip s).
Proof. intros c t E; exact (dropwhile_hd _ _ E). Qed.

Lemma rev_rstrip s : rev (rstrip s) = dropwhile isspace (rev s).
Proof. unfold rstrip; apply rev_involutive. Qed.

Lemma rstrip_split s :
  exists sp, s = rstrip s ++ sp /\ forallb isspace sp = true.
Proof.
  destruct (dropwhile_split isspace (rev s)) as [a [E F]].
  exists (rev a); split; [|apply forallb_rev, F].
  unfold rstrip; rewrite <- rev_app_distr, <- E, rev_involutive; reflexivity.
Qed.

Lemma rstrip_ends_clean s : ends_clean (rstrip s).
Proof. intros c t; rewrite rev_rstrip; apply dropwhile_hd. Qed.

Lemma rstrip_fix s : ends_clean s -> rstrip s = s.
Proof.
  intros H; unfold rstrip.
  destruct (rev s) as [|c t] eqn:E.
  - simpl; apply (f_equal (@rev ascii)) in E;
      rewrite rev_involutive in E; simpl in E; congruence.
  - rewrite dropwhile_fix by exact (H c t E).
    rewrite <- E; apply rev_involutive.
Qed.

Lemma rstrip_starts_clean s : starts_clean s -> starts_clean (rstrip s).
Proof.
  intros H c t E.
  destruct (rstrip_split s) as [sp [D _]].
  rewrite E in D; exact (H c (t ++ sp) D).
Qed.

Lemma strip_starts_clean s : starts_clean (strip s).
Proof. apply rstrip_starts_clean, lstrip_starts_clean. Qed.

Lemma strip_ends_clean s : ends_clean (strip s).
Proof. apply rstrip_ends_clean. Qed.

Lemma strip_fix s : starts_clean s -> ends_clean s -> strip s = s.
Proof.
  intros Hs He; unfold strip; rewrite (lstrip_fix Hs); apply rstrip_fix, He.
Qed.

Lemma strip_split s :
  exists a b, s = a ++ strip s ++ b
              /\ forallb isspace a = true /\ forallb isspace b = true.
Proof.
  destruct (dropwhile_split isspace s) as [a [E F]].
  destruct (rstrip_split (lstrip s)) as [b [E' F']].
  exists a, b; repeat split; auto.
  unfold strip; rewrite <- E'; exact E.
Qed.

Lemma strip_length s : List.length (strip s) <= List.length s.
Proof.
  destruct (strip_split s) as [a [b [E _]]].
  rewrite E at 2; rewrite !length_app; lia.
Qed.

(** ** [endswith] on one character and [removelast] *)

Lemma endswith_char s c :
  endswith s [c] = true <-> exists t, s = t ++ [c].
Proof.
  unfold endswith; split.
  - destruct (rev s) as [|x r] eqn:E; simpl; [discriminate|].
    rewrite andb_true_r, Ascii.eqb_eq; intros ->.
    exists (rev r).
    apply (f_equal (@rev ascii)) in E; rewrite rev_involutive in E; exact E.
  - intros [t ->]; rewrite rev_app_distr; simpl.
    rewrite Ascii.eqb_refl; reflexivity.
Qed.

Lemma endswith_char_false s c :
  endswith s [c] = false <-> forall x r, rev s = x :: r -> x <> c.
Proof.
  unfold endswith; split.
  - intros H x r E; rewrite E in H; simpl in H; rewrite andb_true_r in H.
    apply Ascii.eqb_neq; exact H.
  - intros H; destruct (rev s) as [|x r] eqn:E; [reflexivity|].
    simpl; rewrite andb_true_r; apply Ascii.eqb_neq; exact (H x r eq_refl).
Qed.

Lemma removelast_starts_clean s : starts_clean s -> starts_clean (removelast s).
Proof.
  intros H c t E; destruct s as [|x [|y s']]; simpl in E; try discriminate.
  inversion E; subst; exact (H c (y :: s') eq_refl).
Qed.

(** ** The search for the literal *)

Lemma ci_prefix_length pat s :
  ci_prefix pat s = true -> List.length pat <= List.length s.
Proof.
  revert s; induction pat as [|p pat IH]; intros [|c s]; simpl;
    try discriminate; try lia.
  rewrite andb_true_iff; intros [_ H]; apply IH in H; lia.
Qed.

Lemma ci_prefix_app pat s t :
  ci_prefix pat s = true -> ci_prefix pat (s ++ t) = true.
Proof.
  revert s; induction pat as [|p pat IH]; intros [|c s]; simpl;
    try discriminate; auto.
  rewrite !andb_true_iff; intros [H1 H2]; auto.
Qed.

Lemma ci_prefix_of_prefix pat e rest :
  ci_prefix pat (e ++ rest) = true -> List.length pat <= List.length e ->
  ci_prefix pat e = true.
Proof.
  revert e; induction pat as [|p pat IH]; intros [|c e]; simpl; auto;
    try lia.
  rewrite !andb_true_iff; intros [H1 H2] L; split; auto.
  apply IH; [exact H2 | lia].
Qed.

Lemma re_search_unfold pat s :
  re_search pat s =
  if ci_prefix pat s then Some 0
  else match s with
       | [] => None
       | _ :: s' => option_map S (re_search pat s')
       end.
Proof. destruct s; reflexivity. Qed.

Lemma re_search_Some pat s i :
  re_search pat s = Some i ->
  ci_prefix pat (skipn i s) = true
  /\ forall j, j < i -> ci_prefix pat (skipn j s) = false.
Proof.
  revert i; induction s as [|c s IH]; intros i; rewrite re_search_unfold.
  - destruct (ci_prefix pat []) eqn:P; [|discriminate].
    intros E; inversion E; subst; split; [exact P | intros; lia].
  - destruct (ci_prefix pat (c :: s)) eqn:P.
    + intros E; inversion E; subst; split; [exact P | intros; lia].
    + destruct (re_search pat s) as [k|]; simpl; [|discriminate].
      intros E; inversion E; subst.
      destruct (IH k eq_refl) as [H1 H2]; split; [exact H1|].
      intros [|j] L; [exact P | apply H2; lia].
Qed.

Lemma re_search_None pat s :
  re_search pat s = None <-> forall j, ci_prefix pat (skipn j s) = false.
Proof.
  induction s as [|c s IH]; rewrite re_search_unfold.
  - destruct (ci_prefix pat []) eqn:P; split; try discriminate; auto.
    + intros H; specialize (H 0); simpl in H; congruence.
    + intros _ [|j]; exact P.
  - destruct (ci_prefix pat (c :: s)) eqn:P.
    + split; [discriminate|].
      intros H; specialize (H 0); simpl in H; congruence.
    + destruct (re_search pat s) as [k|] eqn:R; simpl.
      * split; [discriminate|].
        intros H; destruct IH as [_ IH].
        discriminate IH; intros j; exact (H (S j)).
      * split; auto; intros _ [|j]; [exact P | apply IH; reflexivity].
Qed.

Lemma re_search_at_head pat s :
  ci_prefix pat s = true -> re_search pat s = Some 0.
Proof. intros P; rewrite re_search_unfold, P; reflexivity. Qed.

(** No match in a text, no match in any piece cut out of it. *)
Lemma re_search_None_infix pat a b c :
  re_search pat (a ++ b ++ c) = None -> re_search pat b = None.
Proof.
  rewrite !re_search_None; intros H j.
  destruct (ci_prefix pat (skipn j b)) eqn:P; [|reflexivity].
  assert (Q : skipn j b = skipn (Nat.min j (List.length b)) b).
  { destruct (Nat.le_gt_cases j (List.length b)) as [L|L].
    - rewrite Nat.min_l by lia; reflexivity.
    - rewrite Nat.min_r by lia.
      rewrite skipn_all, skipn_all2 by lia; reflexivity. }
  rewrite Q in P; apply ci_prefix_app with (t := c) in P.
  specialize (H (List.length a + Nat.min j (List.length b))).
  rewrite skipn_app, skipn_all2, Nat.add_comm, Nat.add_sub in H by lia.
  simpl in H.
  rewrite skipn_app in H.
  replace (Nat.min j (List.length b) - List.length b) with 0 in H by lia.
  simpl in H; congruence.
Qed.

(** ** The extractor *)

Lemma extract_prefix_candidate s :
  exists x, candidate s = extract_sql s ++ x /\ (x = [] \/ x = py ";").
Proof.
  unfold extract_sql.
  destruct (endswith (candidate s) (py ";")) eqn:E.
  - apply endswith_char in E; destruct E as [t E].
    exists (py ";"); rewrite E, removelast_last; auto.
  - exists []; rewrite app_nil_r; auto.
Qed.

Lemma extract_length s : List.length (extract_sql s) <= List.length (candidate s).
Proof.
  destruct (extract_prefix_candidate s) as [x [E _]].
  rewrite E, length_app; lia.
Qed.

Lemma match_starts_clean t :
  ci_prefix SELECT_LITERAL t = true -> starts_clean t.
Proof.
  intros P c r ->; simpl in P.
  apply andb_true_iff in P; destruct P as [P _].
  apply s_match_not_space; exact P.
Qed.

(** Where the pattern matches, the output is cut out of the matched text at
    its very start. *)
Lemma extract_of_match s i :
  re_search SELECT_LITERAL s = Some i ->
  exists x, skipn i s = extract_sql s ++ x /\ cut_tail x.
Proof.
  intros R.
  destruct (re_search_Some _ _ R) as [P _].
  destruct (extract_prefix_candidate s) as [x [E Hx]].
  unfold candidate, group0 in E; rewrite R in E.
  unfold strip in E; rewrite (lstrip_fix (match_starts_clean P)) in E.
  destruct (rstrip_split (skipn i s)) as [sp [D F]].
  exists (x ++ sp); split.
  - rewrite D at 1; rewrite E, <- app_assoc; reflexivity.
  - exists sp; split; [exact F|].
    destruct Hx as [-> | ->]; [left | right]; reflexivity.
Qed.

Lemma extract_of_no_match s :
  re_search SELECT_LITERAL s = None ->
  exists a x, s = a ++ extract_sql s ++ x.
Proof.
  intros R.
  destruct (extract_prefix_candidate s) as [x [E _]].
  unfold candidate in E; rewrite R in E.
  destruct (strip_split s) as [a [b [D _]]].
  exists a, (x ++ b); rewrite D at 1; rewrite E, <- app_assoc; reflexivity.
Qed.

Lemma extract_starts_clean s : starts_clean (extract_sql s).
Proof.
  unfold extract_sql.
  assert (C : starts_clean (candidate s)).
  { unfold candidate; destruct (re_search _ s); apply strip_starts_clean. }
  destruct (endswith _ _); [apply removelast_starts_clean|]; exact C.
Qed.

(** In the output the pattern matches at the head or nowhere. *)
Lemma search_in_extract s :
  re_search SELECT_LITERAL (extract_sql s) = None
  \/ ci_prefix SELECT_LITERAL (extract_sql s) = true.
Proof.
  destruct (re_search SELECT_LITERAL s) as [i|] eqn:R.
  - destruct (extract_of_match _ R) as [x [E _]].
    destruct (re_search_Some _ _ R) as [P _]; rewrite E in P.
    destruct (re_search SELECT_LITERAL (extract_sql s)) as [j|] eqn:R2;
      [right | left; reflexivity].
    apply (ci_prefix_of_prefix _ _ _ P).
    destruct (re_search_Some _ _ R2) as [P2 _].
    apply ci_prefix_length in P2; rewrite length_skipn in P2; lia.
  - left; destruct (extract_of_no_match _ R) as [a [x E]].
    rewrite E in R; exact (re_search_None_infix _ _ _ _ R).
Qed.

Lemma candidate_of_extract s :
  candidate (extract_sql s) = strip (extract_sql s).
Proof.
  unfold candidate.
  destruct (search_in_extract s) as [R | P].
  - rewrite R; reflexivity.
  - rewrite (re_search_at_head _ _ P); reflexivity.
Qed.

Lemma settled_ends_clean e : settled e = true -> ends_clean e.
Proof.
  unfold settled; intros H c t E; rewrite E in H.
  apply andb_true_iff in H; destruct H as [H _].
  apply negb_true_iff; exact H.
Qed.

Lemma settled_no_terminator e : settled e = true -> endswith e (py ";") = false.
Proof.
  unfold settled; intros H; apply endswith_char_false; intros x r E.
  rewrite E in H; apply andb_true_iff in H; destruct H as [_ H].
  apply negb_true_iff, Ascii.eqb_neq in H; exact H.
Qed.

Lemma extract_settled_fixed s :
  settled (extract_sql s) = true ->
  extract_sql (extract_sql s) = extract_sql s.
Proof.
  intros H.
  assert (C : candidate (extract_sql s) = extract_sql s).
  { rewrite candidate_of_extract.
    apply strip_fix;
      [apply extract_starts_clean | apply settled_ends_clean, H]. }
  unfold extract_sql at 1; rewrite C, (settled_no_terminator _ H).
  reflexivity.
Qed.

Lemma last_of_suffix (e : list ascii) j c r :
  rev e = c :: r -> skipn j e <> [] -> exists r', rev (skipn j e) = c :: r'.
Proof.
  intros E N.
  rewrite <- (firstn_skipn j e), rev_app_distr in E.
  destruct (rev (skipn j e)) as [|c' r'] eqn:R.
  - exfalso; apply N.
    apply (f_equal (@rev ascii)) in R; rewrite rev_involutive in R; exact R.
  - simpl in E; inversion E; subst; eauto.
Qed.

Lemma strip_shrinks u c r :
  rev u = c :: r -> isspace c = true ->
  List.length (strip u) < List.length u.
Proof.
  intros E W.
  destruct (strip_split u) as [a [b [D _]]].
  destruct a as [|x a]; [destruct b as [|y b]|].
  - exfalso; simpl in D; rewrite app_nil_r in D.
    pose proof (strip_ends_clean u) as C; rewrite <- D in C.
    rewrite (C c r E) in W; discriminate.
  - rewrite D at 2; rewrite !length_app; simpl; lia.
  - rewrite D at 2; rewrite !length_app; simpl; lia.
Qed.

Lemma space_in_spaces (sp : str) c : forallb isspace sp = true -> In c sp -> isspace c = true.
Proof. intros F I; rewrite forallb_forall in F; auto. Qed.

Lemma strip_keeps_terminator u r :
  rev u = ";"%char :: r -> exists r', rev (strip u) = ";"%char :: r'.
Proof.
  intros E.
  destruct (strip_split u) as [a [b [D [Fa Fb]]]].
  rewrite D, !rev_app_distr, <- app_assoc in E.
  destruct (rev b) as [|y rb] eqn:B.
  - destruct (rev (strip u)) as [|z rs] eqn:S.
    + exfalso; simpl in E.
      assert (I : In ";"%char a) by (apply in_rev; rewrite E; left; reflexivity).
      pose proof (space_in_spaces _ _ Fa I) as W; vm_compute in W; discriminate.
    + simpl in E; inversion E; subst; eauto.
  - exfalso; simpl in E; inversion E; subst.
    assert (I : In ";"%char b) by (apply in_rev; rewrite B; left; reflexivity).
    pose proof (space_in_spaces _ _ Fb I) as W; vm_compute in W; discriminate.
Qed.

Lemma candidate_is_strip_of_suffix e :
  exists j, candidate e = strip (skipn j e).
Proof.
  unfold candidate, group0.
  destruct (re_search SELECT_LITERAL e) as [j|]; [exists j | exists 0];
    reflexivity.
Qed.

Lemma suffix_length (e : str) j : List.length (skipn j e) <= List.length e.
Proof. rewrite length_skipn; lia. Qed.

(** An output that still ends in white space or in a terminator loses at
    least one character on the next application. *)
Lemma unsettled_shrinks e :
  settled e = false -> List.length (extract_sql e) < List.length e.
Proof.
  unfold settled; destruct (rev e) as [|c r] eqn:E; [discriminate|].
  intros H.
  assert (Le : 0 < List.length e).
  { rewrite <- length_rev, E; simpl; lia. }
  destruct (candidate_is_strip_of_suffix e) as [j C].
  pose proof (extract_length e) as L1; rewrite C in L1.
  pose proof (strip_length (skipn j e)) as L2.
  pose proof (suffix_length e j) as L3.
  destruct (skipn j e) as [|x u'] eqn:U.
  - unfold strip, rstrip, lstrip in L1; simpl in L1; lia.
  - assert (N : skipn j e <> []) by (rewrite U; discriminate).
    destruct (@last_of_suffix e j c r E N) as [r' R]; rewrite U in R.
    destruct (isspace c) eqn:W.
    + pose proof (strip_shrinks _ R W); lia.
    + simpl in H; apply negb_false_iff, Ascii.eqb_eq in H; subst c.
      destruct (strip_keeps_terminator _ R) as [r'' T].
      assert (Q : endswith (candidate e) (py ";") = true).
      { rewrite C; unfold endswith; rewrite T; reflexivity. }
      unfold extract_sql; rewrite Q, C.
      assert (Ls : 0 < List.length (strip (x :: u'))).
      { rewrite <- length_rev, T; simpl; lia. }
      destruct (strip (x :: u')) as [|y v] eqn:V; [simpl in Ls; lia|].
      rewrite <- V in *.
      assert (List.length (removelast (strip (x :: u'))) < List.length (strip (x :: u'))).
      { rewrite V; clear; revert y; induction v as [|z v IH]; intros y;
          [simpl; lia|].
        change (removelast (y :: z :: v)) with (y :: removelast (z :: v)).
        simpl List.length; specialize (IH z); simpl in IH; lia. }
      lia.
Qed.

Lemma ci_prefix_shorter p q s :
  ci_prefix (p ++ q) s = true -> ci_prefix p s = true.
Proof.
  revert s; induction p as [|c p IH]; intros [|x s]; simpl; auto.
  rewrite !andb_true_iff; intros [H1 H2]; auto.
Qed.

Lemma match_head t :
  ci_prefix SELECT_LITERAL t = true ->
  exists c r, t = c :: r /\ isspace c = false /\ c <> ";"%char.
Proof.
  destruct t as [|c r]; [discriminate|]; intros P.
  exists c, r; split; [reflexivity|]; simpl in P.
  apply andb_true_iff in P; destruct P as [P _].
  split; [apply s_match_not_space, P|].
  intros ->; vm_compute in P; discriminate.
Qed.

Lemma match_not_in_tail x :
  cut_tail x -> ci_prefix SELECT_LITERAL x = false.
Proof.
  intros [sp [F Hx]].
  destruct (ci_prefix SELECT_LITERAL x) eqn:P; [exfalso|reflexivity].
  destruct (match_head _ P) as [c [r [E [W N]]]].
  destruct Hx as [-> | ->].
  - assert (I : In c sp) by (rewrite E; left; reflexivity).
    rewrite (space_in_spaces _ _ F I) in W; discriminate.
  - inversion E; subst; congruence.
Qed.

Lemma extract_of_match_nonempty s i :
  re_search SELECT_LITERAL s = Some i -> extract_sql s <> [].
Proof.
  intros R N.
  destruct (extract_of_match _ R) as [x [E T]].
  destruct (re_search_Some _ _ R) as [P _].
  rewrite N in E; simpl in E; rewrite E in P.
  rewrite (match_not_in_tail T) in P; discriminate.
Qed.

Lemma in_suffix (s : list ascii) i c : In c (skipn i s) -> In c s.
Proof.
  intros H; rewrite <- (firstn_skipn i s); apply in_or_app; right; exact H.
Qed.

Lemma blank_has_no_match s :
  strip s = [] \/ strip s = py ";" -> re_search SELECT_LITERAL s = None.
Proof.
  intros H.
  destruct (re_search SELECT_LITERAL s) as [i|] eqn:R; [exfalso|reflexivity].
  destruct (re_search_Some _ _ R) as [P _].
  destruct (match_head _ P) as [c [r [E [W N]]]].
  assert (I : In c s) by (apply (in_suffix s i); rewrite E; left; reflexivity).
  destruct (strip_split s) as [a [b [D [Fa Fb]]]].
  rewrite D in I; apply in_app_or in I; destruct I as [I | I].
  - rewrite (space_in_spaces _ _ Fa I) in W; discriminate.
  - apply in_app_or in I; destruct I as [I | I].
    + destruct H as [H | H]; rewrite H in I; simpl in I;
        [contradiction | destruct I as [I | []]; congruence].
    + rewrite (space_in_spaces _ _ Fb I) in W; discriminate.
Qed.

(** ** SqlExtractor: the claims *)

(** C3, as stated, fails: two terminators are removed one per application. *)
Lemma C3_double_terminator_counterexample :
  extract_sql (extract_sql (py "SELECT 1;;")) <> extract_sql (py "SELECT 1;;").
Proof. vm_compute; discriminate. Qed.

(** C3, amended: extraction is idempotent exactly on the inputs whose
    extraction ends neither in ';' nor in a white-space character. *)
Theorem C3_extract_idempotent_iff_settled (s : str) :
  extract_sql (extract_sql s) = extract_sql s
  <-> settled (extract_sql s) = true.
Proof.
  split; [|apply extract_settled_fixed].
  intros E; destruct (settled (extract_sql s)) eqn:H; [reflexivity|].
  apply unsettled_shrinks in H; rewrite E in H; lia.
Qed.

(** C4, as stated, fails: SELECT not followed by a space is not matched, and
    the output then starts at the beginning of the text.  Here the token is
    at index 7, and no piece of the text from index 7 on begins with the
    output. *)
Lemma C4_select_without_space_counterexample :
  re_search (py "SELECT") (py "Query: SELECT* FROM t") = Some 7
  /\ extract_sql (py "Query: SELECT* FROM t") = py "Query: SELECT* FROM t"
  /\ ~ (exists p rest, 7 <= p
        /\ skipn p (py "Query: SELECT* FROM t")
           = extract_sql (py "Query: SELECT* FROM t") ++ rest).
Proof.
  split; [reflexivity|]; split; [reflexivity|].
  intros [p [rest [L E]]].
  apply (f_equal (@List.length ascii)) in E.
  rewrite length_app, length_skipn in E.
  change (List.length (extract_sql (py "Query: SELECT* FROM t"))) with 21 in E.
  change (List.length (py "Query: SELECT* FROM t")) with 21 in E.
  lia.
Qed.

(** On a match the candidate is the matched text without its trailing
    white space. *)
Lemma candidate_of_match s i :
  re_search SELECT_LITERAL s = Some i -> candidate s = rstrip (skipn i s).
Proof.
  intros R; destruct (re_search_Some _ _ R) as [P _].
  unfold candidate, group0, strip; rewrite R.
  rewrite (lstrip_fix (match_starts_clean P)); reflexivity.
Qed.

Lemma clean_end_is_settled e :
  ends_clean e -> endswith e (py ";") = false -> settled e = true.
Proof.
  intros C N; unfold settled.
  destruct (rev e) as [|c r] eqn:E; [reflexivity|].
  rewrite (C c r E); simpl.
  apply negb_true_iff, Ascii.eqb_neq.
  apply (proj1 (endswith_char_false e ";"%char) N c r E).
Qed.

(** C4, amended: when SELECT followed by a space occurs in the text (letter
    case ignored), the output begins exactly at the first such occurrence,
    which is at or after the first occurrence of SELECT, and it is the text
    from there to the end with all its trailing white space removed and
    then one trailing ';' removed, if there is one.  So either only white
    space was cut and the output ends neither in white space nor in ';', or
    one ';' followed by white space was cut. *)
Theorem C4_extract_starts_at_first_match (s : str) (i k : nat) :
  re_search SELECT_LITERAL s = Some i ->
  re_search (py "SELECT") s = Some k ->
  k <= i
  /\ ci_prefix SELECT_LITERAL (skipn i s) = true
  /\ (forall j, j < i -> ci_prefix SELECT_LITERAL (skipn j s) = false)
  /\ extract_sql s <> []
  /\ extract_sql s
     = (if endswith (rstrip (skipn i s)) (py ";")
        then removelast (rstrip (skipn i s))
        else rstrip (skipn i s))
  /\ exists sp,
       forallb isspace sp = true
       /\ ((s = firstn i s ++ extract_sql s ++ sp
            /\ settled (extract_sql s) = true)
           \/ s = firstn i s ++ extract_sql s ++ ";"%char :: sp).
Proof.
  intros R K.
  destruct (re_search_Some _ _ R) as [P F].
  destruct (re_search_Some _ _ K) as [_ G].
  assert (X : extract_sql s
              = (if endswith (rstrip (skipn i s)) (py ";")
                 then removelast (rstrip (skipn i s))
                 else rstrip (skipn i s)))
    by (unfold extract_sql; rewrite (candidate_of_match _ R); reflexivity).
  split; [|repeat split; auto].
  - destruct (Nat.le_gt_cases k i) as [L|L]; [exact L | exfalso].
    apply (ci_prefix_shorter (py "SELECT") (py " ")) in P.
    rewrite (G i L) in P; discriminate.
  - apply (extract_of_match_nonempty _ R).
  - destruct (rstrip_split (skipn i s)) as [sp [D W]].
    exists sp; split; [exact W|].
    assert (Cut : forall e x, skipn i s = e ++ x -> s = firstn i s ++ e ++ x).
    { intros e x H; rewrite <- H; symmetry; apply firstn_skipn. }
    destruct (endswith (rstrip (skipn i s)) (py ";")) eqn:E.
    + right; apply Cut.
      apply endswith_char in E; destruct E as [t E].
      rewrite X, E, removelast_last.
      etransitivity; [exact D|].
      rewrite E, <- app_assoc; reflexivity.
    + left; rewrite X; split.
      * apply Cut; exact D.
      * apply clean_end_is_settled; [apply rstrip_ends_clean | exact E].
Qed.

Lemma C4_extract_starts_at_first_match_witness :
  re_search SELECT_LITERAL (py "Sure! select * from t ; ") = Some 6
  /\ extract_sql (py "Sure! select * from t ; ") = py "select * from t "
  /\ extract_sql (py "Sure! select * from t ; ")
     = (if endswith (rstrip (skipn 6 (py "Sure! select * from t ; "))) (py ";")
        then removelast (rstrip (skipn 6 (py "Sure! select * from t ; ")))
        else rstrip (skipn 6 (py "Sure! select * from t ; "))).
Proof.
  split; [reflexivity|]; split; [reflexivity|].
  exact (proj1 (proj2 (proj2 (proj2 (proj2
    (@C4_extract_starts_at_first_match (py "Sure! select * from t ; ") 6 6
       eq_refl eq_refl)))))).
Defined.

(** C5, as stated, fails: a lone terminator and a blank text are not empty
    and are extracted to the empty string. *)
Lemma C5_nonempty_input_empty_output_counterexample :
  py ";" <> [] /\ extract_sql (py ";") = []
  /\ py "  " <> [] /\ extract_sql (py "  ") = [].
Proof. repeat split; try discriminate; reflexivity. Qed.

(** C5, amended: the output is empty exactly when the trimmed input is empty
    or is a single ';'. *)
Theorem C5_extract_empty_iff (s : str) :
  extract_sql s = [] <-> strip s = [] \/ strip s = py ";".
Proof.
  split.
  - intros E.
    destruct (re_search SELECT_LITERAL s) as [i|] eqn:R.
    + exfalso; exact (extract_of_match_nonempty _ R E).
    + destruct (extract_prefix_candidate s) as [x [C Hx]].
      unfold candidate in C; rewrite R, E in C; simpl in C.
      destruct Hx as [-> | ->]; auto.
  - intros H; unfold extract_sql, candidate.
    rewrite (blank_has_no_match _ H).
    destruct H as [-> | ->]; reflexivity.
Qed.

(** ** The chat round: accepting the user's text *)

Lemma two_last {A} (l : list A) :
  2 <= List.length l -> exists front a b, l = front ++ [a; b].
Proof.
  intros L.
  destruct (exists_last (l := l)) as [l1 [b E]];
    [intros ->; simpl in L; lia|].
  subst l; rewrite length_app in L; simpl in L.
  destruct (exists_last (l := l1)) as [front [a E]];
    [intros ->; simpl in L; lia|].
  subst l1; exists front, a, b; rewrite <- app_assoc; reflexivity.
Qed.

Lemma list_set_middle {A} (front : list A) x y rest :
  list_set (List.length front) x (front ++ y :: rest) = front ++ x :: rest.
Proof. induction front as [|z front IH]; simpl; [|rewrite IH]; reflexivity. Qed.

Lemma chaining_short u w :
  List.length (App.messages w) < 2 ->
  App.clarification_chaining u w = (Ret (Some u), w).
Proof.
  intros L; unfold App.clarification_chaining.
  destruct (Nat.leb_spec 2 (List.length (App.messages w))); [lia | reflexivity].
Qed.

Lemma chaining_two_last u w front prev last :
  App.messages w = front ++ [prev; last] ->
  App.clarification_chaining u w =
  if App.mentions_clarification (App.content last)
  then (Ret None,
        App.set_messages
          (front ++ [ {| App.role := App.role prev;
                         App.content := App.content prev ++ py " " ++ u |};
                      last ]) w)
  else (Ret (Some u), w).
Proof.
  intros E; unfold App.clarification_chaining; rewrite E.
  rewrite length_app; simpl List.length.
  destruct (Nat.leb_spec 2 (List.length front + 2)); [|lia].
  replace (List.length front + 2 - 1) with (List.length front + 1) by lia.
  replace (List.length front + 2 - 2) with (List.length front + 0) by lia.
  rewrite !nth_error_app2 by lia.
  replace (List.length front + 1 - List.length front) with 1 by lia.
  replace (List.length front + 0 - List.length front) with 0 by lia.
  simpl nth_error; cbv iota.
  rewrite Nat.add_0_r, list_set_middle; reflexivity.
Qed.

(** C1, a second failing input of the same test (main.py 118): the role of
    the last turn is never looked at, although the code calls it
    [last_assistant].  After two rounds in which the inference call raised,
    the stored turns are two user turns; the second mentions the word, and
    the third text is merged into the first turn, not appended. *)
Lemma C1_role_not_checked_counterexample :
  let down := fun _ : list Message => @Raise str (py "connection error") in
  let store := fun _ : str => @Ret DataFrame [] in
  let run := App.script_run (py "schema") down store in
  let w0 := {| App.messages := []; App.results := []; App.page := [];
               App.store_calls := [] |} in
  let w1 := snd (run (Some (py "Show transactions")) w0) in
  let w2 := snd (run (Some (py "I need clarification")) w1) in
  App.messages w2
  = [ {| App.role := py "user"; App.content := py "Show transactions" |};
      {| App.role := py "user"; App.content := py "I need clarification" |} ]
  /\ App.messages (snd (App.accept_user_input (py "last 7 days") w2))
     = [ {| App.role := py "user";
            App.content := py "Show transactions last 7 days" |};
         {| App.role := py "user"; App.content := py "I need clarification" |} ]
  /\ App.messages (snd (App.accept_user_input (py "last 7 days") w2))
     <> App.messages w2
        ++ [ {| App.role := py "user"; App.content := py "last 7 days" |} ].
Proof.
  cbv zeta; split; [reflexivity|]; split; [reflexivity|].
  vm_compute; discriminate.
Qed.

(** The user-input step by cases on the stored turns. *)
Lemma accept_user_input_short u w :
  List.length (App.messages w) < 2 ->
  App.accept_user_input u w
  = App.store_user_turn (Some u) w.
Proof.
  intros L; unfold App.accept_user_input, bind.
  rewrite (chaining_short _ _ L); reflexivity.
Qed.

Lemma accept_user_input_two_last u w front prev last :
  App.messages w = front ++ [prev; last] ->
  App.accept_user_input u w
  = if App.mentions_clarification (App.content last)
    then (Ret tt,
          App.set_messages
            (front ++ [ {| App.role := App.role prev;
                           App.content := App.content prev ++ py " " ++ u |};
                        last ]) w)
    else App.store_user_turn (Some u) w.
Proof.
  intros E; unfold App.accept_user_input, bind.
  rewrite (chaining_two_last _ _ _ _ _ E).
  destruct (App.mentions_clarification (App.content last)); reflexivity.
Qed.

Lemma store_user_turn_nonempty c u w :
  App.store_user_turn (Some (c :: u)) w
  = (Ret tt,
     {| App.messages := App.messages w
                        ++ [ {| App.role := py "user"; App.content := c :: u |} ];
        App.results := App.results w;
        App.page := App.page w ++ [App.UiMarkdown (c :: u)];
        App.store_calls := App.store_calls w |}).
Proof. reflexivity. Qed.

Lemma accept_user_input_merges w u front prev last :
  App.messages w = front ++ [prev; last] ->
  App.mentions_clarification (App.content last) = true ->
  App.messages (snd (App.accept_user_input u w))
  = front ++ [ {| App.role := App.role prev;
                  App.content := App.content prev ++ py " " ++ u |};
               last ].
Proof.
  intros E Q; rewrite (accept_user_input_two_last _ _ _ _ _ E), Q.
  reflexivity.
Qed.

Lemma accept_user_input_appends w u :
  u <> [] ->
  (forall front prev last,
      App.messages w = front ++ [prev; last] ->
      App.mentions_clarification (App.content last) = false) ->
  App.accept_user_input u w
  = (Ret tt,
     {| App.messages := App.messages w
                        ++ [ {| App.role := py "user"; App.content := u |} ];
        App.results := App.results w;
        App.page := App.page w ++ [App.UiMarkdown u];
        App.store_calls := App.store_calls w |}).
Proof.
  intros N H; destruct u as [|c u]; [congruence|].
  destruct (Nat.lt_ge_cases (List.length (App.messages w)) 2) as [L|L].
  - rewrite (accept_user_input_short _ _ L); apply store_user_turn_nonempty.
  - destruct (two_last _ L) as [front [prev [last E]]].
    rewrite (accept_user_input_two_last _ _ _ _ _ E), (H _ _ _ E).
    apply store_user_turn_nonempty.
Qed.

(** The step never raises and touches neither the results nor the store. *)
Lemma accept_user_input_frame u w :
  fst (App.accept_user_input u w) = Ret tt
  /\ App.results (snd (App.accept_user_input u w)) = App.results w
  /\ App.store_calls (snd (App.accept_user_input u w)) = App.store_calls w.
Proof.
  destruct (Nat.lt_ge_cases (List.length (App.messages w)) 2) as [L|L].
  - rewrite (accept_user_input_short _ _ L).
    destruct u; simpl; auto.
  - destruct (two_last _ L) as [front [prev [last E]]].
    rewrite (accept_user_input_two_last _ _ _ _ _ E).
    destruct (App.mentions_clarification (App.content last));
      [|destruct u]; simpl; auto.
Qed.

(** ** The chat round: the response *)

Section ChatRound.

Variable system_prompt : str.
Variable llm_invoke : list Message -> result str.
Variable read_sql_query : str -> result DataFrame.

Let run_agent := App.run_agent system_prompt llm_invoke.
Let handle_response := App.handle_response read_sql_query.
Let on_chat_input := App.on_chat_input system_prompt llm_invoke read_sql_query.

Lemma run_agent_system api :
  run_agent (SystemMessage system_prompt :: api)
  = match llm_invoke (SystemMessage system_prompt
                        :: SystemMessage system_prompt :: api) with
    | Ret response => Ret (Some response)
    | Raise e => Raise e
    end.
Proof.
  unfold run_agent, App.run_agent, App.call_llm, App.last_content.
  destruct (rev (SystemMessage system_prompt :: api)) as [|m r] eqn:E.
  - apply (f_equal (@List.length Message)) in E.
    rewrite length_rev in E; discriminate.
  - destruct (llm_invoke _) as [response|e]; [|reflexivity].
    rewrite rev_app_distr; reflexivity.
Qed.

Lemma on_chat_input_unfold u w :
  on_chat_input u w
  = match llm_invoke (request_of system_prompt (snd (App.accept_user_input u w))) with
    | Ret response =>
        handle_response (Some response) (snd (App.accept_user_input u w))
    | Raise e => (Raise e, snd (App.accept_user_input u w))
    end.
Proof.
  unfold on_chat_input, App.on_chat_input, bind.
  destruct (accept_user_input_frame u w) as [F _].
  destruct (App.accept_user_input u w) as [r w1]; simpl in F; subst r.
  unfold App.get_messages, lift; simpl snd.
  fold run_agent; rewrite run_agent_system; unfold request_of.
  destruct (llm_invoke _); reflexivity.
Qed.

Lemma marker_nonempty (r : str) :
  startswith r CLARIFICATION_MARKER = true -> exists c s, r = c :: s.
Proof. destruct r as [|c s]; [discriminate | eauto]. Qed.

Lemma handle_response_clarification response w :
  startswith response CLARIFICATION_MARKER = true ->
  handle_response (Some response) w
  = (Ret tt,
     {| App.messages :=
          App.messages w
          ++ [ {| App.role := py "assistant";
                  App.content :=
                    strip (replace CLARIFICATION_MARKER [] response) |} ];
        App.results := App.results w;
        App.page :=
          App.page w
          ++ [App.UiMarkdown
                (strip (replace CLARIFICATION_MARKER [] response))];
        App.store_calls := App.store_calls w |}).
Proof.
  intros H; destruct (marker_nonempty _ H) as [c [s ->]].
  unfold handle_response, App.handle_response; cbv zeta; rewrite H.
  reflexivity.
Qed.

Lemma handle_response_nothing response w :
  truthy response = false ->
  handle_response response w
  = (Ret tt,
     {| App.messages :=
          App.messages w
          ++ [ {| App.role := py "assistant";
                  App.content := App.WARNING_MESSAGE |} ];
        App.results := App.results w;
        App.page := App.page w ++ [App.UiWarning App.WARNING_MESSAGE];
        App.store_calls := App.store_calls w |}).
Proof.
  destruct response as [[|c s]|]; simpl; try discriminate; reflexivity.
Qed.

Lemma handle_response_sql c s w :
  startswith (c :: s) CLARIFICATION_MARKER = false ->
  handle_response (Some (c :: s)) w
  = match read_sql_query (extract_sql (c :: s)) with
    | Ret result_df =>
        (Ret tt,
         {| App.messages :=
              App.messages w
              ++ [ {| App.role := py "assistant";
                      App.content := extract_sql (c :: s) |} ];
            App.results :=
              App.results w
              ++ [ {| App.sql := extract_sql (c :: s);
                      App.data := result_df |} ];
            App.page := App.page w ++ [App.UiCode (extract_sql (c :: s))];
            App.store_calls :=
              App.store_calls w ++ [extract_sql (c :: s)] |})
    | Raise e =>
        (Ret tt,
         {| App.messages :=
              App.messages w
              ++ [ {| App.role := py "assistant";
                      App.content := py "Error running query: " ++ e |} ];
            App.results := App.results w;
            App.page :=
              (App.page w ++ [App.UiCode (extract_sql (c :: s))])
              ++ [App.UiError (py "Error running query: " ++ e)];
            App.store_calls :=
              App.store_calls w ++ [extract_sql (c :: s)] |})
    end.
Proof.
  intros H; unfold handle_response, App.handle_response; cbv zeta.
  rewrite H.
  unfold bind, try_except, App.run_query, bind, App.show,
    App.record_store_call, App.append_result, App.append_message,
    App.set_messages, modify, lift.
  destruct (read_sql_query (extract_sql (c :: s))); reflexivity.
Qed.

(** The handler of the response never raises: a failure of the store is
    caught at main.py 160. *)
Lemma handle_response_returns response w :
  fst (handle_response response w) = Ret tt.
Proof.
  destruct (truthy response) eqn:T.
  - destruct response as [[|c s]|]; try discriminate.
    destruct (startswith (c :: s) CLARIFICATION_MARKER) eqn:H.
    + rewrite (handle_response_clarification _ w H); reflexivity.
    + pose proof (f_equal fst (handle_response_sql _ _ w H)) as X.
      etransitivity; [exact X|].
      destruct (read_sql_query _); reflexivity.
  - rewrite (handle_response_nothing _ w T); reflexivity.
Qed.

End ChatRound.

(** ** The harness: one test case *)

Lemma status_distinct :
  TestExec.FAILED <> TestExec.CLARIFICATION_REQUESTED
  /\ TestExec.PASSED <> TestExec.CLARIFICATION_REQUESTED
  /\ TestExec.FAILED <> TestExec.PASSED.
Proof. repeat split; intros E; vm_compute in E; discriminate. Qed.

Lemma error_text_is_no_clarification e :
  startswith (py "Error generating SQL: " ++ e) CLARIFICATION_MARKER = false.
Proof. reflexivity. Qed.

Section Harness.

Variable system_prompt : str.
Variable llm_invoke : list Message -> result str.
Variable read_sql_query : str -> result DataFrame.
Variable now : nat -> Q.
Variables db_path_exists alt_db_path_exists : bool.
Variables db_abspath alt_db_path : str.

Let run_query :=
  TestExec.run_query read_sql_query db_path_exists alt_db_path_exists
    db_abspath alt_db_path.
Let generate_sql := TestExec.generate_sql system_prompt llm_invoke.
Let execute_test_case :=
  TestExec.execute_test_case system_prompt llm_invoke read_sql_query now
    db_path_exists alt_db_path_exists db_abspath alt_db_path.

Lemma run_query_cases q w :
  run_query q w
  = if database_found db_path_exists alt_db_path_exists then
      match read_sql_query q with
      | Ret df => (Ret (Some df, None), sent q w)
      | Raise e => (Ret (None, Some e), sent q w)
      end
    else (Ret (None, Some (not_found_message db_abspath alt_db_path)), w).
Proof.
  unfold run_query, TestExec.run_query, database_found, not_found_message.
  destruct (negb db_path_exists && negb alt_db_path_exists); simpl;
    [reflexivity|].
  unfold try_except, bind, TestExec.record_store_call, modify, lift, ret.
  fold (sent q w).
  destruct (read_sql_query q); reflexivity.
Qed.

Lemma generate_sql_cases q w : generate_sql q w = (Ret (answer system_prompt llm_invoke q), w).
Proof.
  unfold generate_sql, TestExec.generate_sql, try_except, lift, ret, answer.
  destruct (llm_invoke _); reflexivity.
Qed.

Lemma execute_clarification tid q w :
  startswith (answer system_prompt llm_invoke q) CLARIFICATION_MARKER = true ->
  execute_test_case tid q w
  = (Ret {| TestExec.test_id := tid; TestExec.query := q;
            TestExec.generated_sql := answer system_prompt llm_invoke q;
            TestExec.execution_status := TestExec.CLARIFICATION_REQUESTED;
            TestExec.execution_time := elapsed now w;
            TestExec.result_count := 0;
            TestExec.error_message := None;
            TestExec.clarification_requested := true |},
     ticked (ticked w)).
Proof.
  intros H.
  unfold execute_test_case, TestExec.execute_test_case, bind,
    TestExec.datetime_now.
  fold generate_sql; rewrite generate_sql_cases, H; reflexivity.
Qed.

Lemma execute_sql tid q w :
  startswith (answer system_prompt llm_invoke q) CLARIFICATION_MARKER = false ->
  execute_test_case tid q w
  = let sql := extract_sql (answer system_prompt llm_invoke q) in
    let r := fst (run_query sql (ticked w)) in
    let w' := ticked (snd (run_query sql (ticked w))) in
    match r with
    | Ret (result_df, error) =>
        if truthy error then
          (Ret {| TestExec.test_id := tid; TestExec.query := q;
                  TestExec.generated_sql := sql;
                  TestExec.execution_status := TestExec.FAILED;
                  TestExec.execution_time := elapsed now w;
                  TestExec.result_count := 0;
                  TestExec.error_message := error;
                  TestExec.clarification_requested := false |}, w')
        else
          (Ret {| TestExec.test_id := tid; TestExec.query := q;
                  TestExec.generated_sql := sql;
                  TestExec.execution_status := TestExec.PASSED;
                  TestExec.execution_time := elapsed now w;
                  TestExec.result_count :=
                    match result_df with
                    | Some df => List.length df
                    | None => 0
                    end;
                  TestExec.error_message := None;
                  TestExec.clarification_requested := false |}, w')
    | Raise e => (Raise e, snd (run_query sql (ticked w)))
    end.
Proof.
  intros H.
  unfold execute_test_case, TestExec.execute_test_case, bind,
    TestExec.datetime_now.
  fold generate_sql; rewrite generate_sql_cases, H.
  fold run_query; fold (ticked w); cbv zeta.
  rewrite run_query_cases.
  destruct (database_found _ _);
    [destruct (read_sql_query _) as [df|[|c e]]|]; reflexivity.
Qed.

Lemma run_query_returns q w : exists out, fst (run_query q w) = Ret out.
Proof.
  rewrite run_query_cases.
  destruct (database_found _ _); [destruct (read_sql_query q)|]; simpl; eauto.
Qed.

End Harness.

(** ** Clarifications and exceptions in the rounds of the chat script *)

(** C1, code bug: the script itself never reaches the stored turns of the
    claim.  When the service asks "CLARIFICATION: which period?", the turn
    is stored without its marker (main.py 143-145), the test of main.py 118
    finds no "clarification" in it, and the answer "last 7 days" is appended
    as a third turn; the question is left as it was, where the claim has it
    become "Show transactions last 7 days" with no turn added. *)
Theorem C1_clarification_answer_is_appended :
  let llm := fun _ : list Message =>
               Ret (py "CLARIFICATION: which period?") in
  let store := fun _ : str => @Ret DataFrame [] in
  let w0 := {| App.messages := []; App.results := []; App.page := [];
               App.store_calls := [] |} in
  let w1 := snd (App.script_run (py "schema") llm store
                   (Some (py "Show transactions")) w0) in
  let merged :=
    [ {| App.role := py "user";
         App.content := py "Show transactions last 7 days" |};
      {| App.role := py "assistant"; App.content := py "which period?" |} ] in
  App.messages w1
  = [ {| App.role := py "user"; App.content := py "Show transactions" |};
      {| App.role := py "assistant"; App.content := py "which period?" |} ]
  /\ App.mentions_clarification (py "which period?") = false
  /\ App.messages (snd (App.accept_user_input (py "last 7 days") w1))
     = [ {| App.role := py "user"; App.content := py "Show transactions" |};
         {| App.role := py "assistant"; App.content := py "which period?" |};
         {| App.role := py "user"; App.content := py "last 7 days" |} ]
  /\ App.messages (snd (App.accept_user_input (py "last 7 days") w1))
     <> merged.
Proof.
  cbv zeta; split; [reflexivity|]; split; [reflexivity|].
  split; [reflexivity|].
  vm_compute; discriminate.
Qed.

(** An exception of the inference call is not handled in the chat script:
    it ends the round after the user's text is stored, with no advisory and
    no assistant turn. *)
Remark inference_exception_leaves_round
    (system_prompt : str) (llm_invoke : list Message -> result str)
    (read_sql_query : str -> result DataFrame) (u e : str) (w : App.World) :
  llm_invoke (request_of system_prompt (snd (App.accept_user_input u w)))
  = Raise e ->
  App.on_chat_input system_prompt llm_invoke read_sql_query u w
  = (Raise e, snd (App.accept_user_input u w)).
Proof. intros L; rewrite on_chat_input_unfold, L; reflexivity. Qed.

(** ** The clarification branch, the store boundary and the empty response *)

(** C2: a response that starts with the marker sends nothing to the store in
    that round, in the chat script (where no result is recorded either and
    the stripped text becomes the assistant turn) and in the harness, whose
    result then has [clarification_requested] set. *)
Theorem C2_clarification_skips_store
    (system_prompt : str) (llm_invoke : list Message -> result str)
    (read_sql_query : str -> result DataFrame) (now : nat -> Q)
    (db_path_exists alt_db_path_exists : bool) (db_abspath alt_db_path : str)
    (response : str) :
  startswith response CLARIFICATION_MARKER = true ->
  (forall u w,
      llm_invoke (request_of system_prompt (snd (App.accept_user_input u w)))
      = Ret response ->
      let out :=
        App.on_chat_input system_prompt llm_invoke read_sql_query u w in
      fst out = Ret tt
      /\ App.store_calls (snd out) = App.store_calls w
      /\ App.results (snd out) = App.results w
      /\ App.messages (snd out)
         = App.messages (snd (App.accept_user_input u w))
           ++ [ {| App.role := py "assistant";
                   App.content :=
                     strip (replace CLARIFICATION_MARKER [] response) |} ])
  /\ (forall tid q w,
         llm_invoke [SystemMessage system_prompt; HumanMessage q]
         = Ret response ->
         exists r w',
           TestExec.execute_test_case system_prompt llm_invoke read_sql_query
             now db_path_exists alt_db_path_exists db_abspath alt_db_path
             tid q w = (Ret r, w')
           /\ TestExec.clarification_requested r = true
           /\ TestExec.execution_status r = TestExec.CLARIFICATION_REQUESTED
           /\ TestExec.store_calls w' = TestExec.store_calls w).
Proof.
  intros H; split.
  - intros u w L out; subst out.
    rewrite on_chat_input_unfold, L.
    rewrite (handle_response_clarification read_sql_query _ _ H); simpl.
    destruct (accept_user_input_frame u w) as [_ [R S]].
    repeat split; auto.
  - intros tid q w L.
    assert (A : startswith (answer system_prompt llm_invoke q)
                  CLARIFICATION_MARKER = true)
      by (unfold answer; rewrite L; exact H).
    rewrite (@execute_clarification system_prompt llm_invoke read_sql_query
               now db_path_exists alt_db_path_exists db_abspath alt_db_path
               tid q w A).
    eexists; eexists; split; [reflexivity|]; simpl; auto.
Qed.

Lemma C2_clarification_skips_store_witness :
  let llm := fun _ : list Message =>
               Ret (py "CLARIFICATION: which period?") in
  let store := fun _ : str => @Ret DataFrame [[py "1"]] in
  let a0 := {| App.messages := []; App.results := []; App.page := [];
               App.store_calls := [] |} in
  let t0 := {| TestExec.store_calls := []; TestExec.clock_reads := 0 |} in
  startswith (py "CLARIFICATION: which period?") CLARIFICATION_MARKER = true
  /\ App.store_calls
       (snd (App.on_chat_input (py "schema") llm store
               (py "Show transactions") a0)) = []
  /\ exists r w',
       TestExec.execute_test_case (py "schema") llm store
         (fun n => inject_Z (Z.of_nat n)) true true (py "db") (py "db")
         (py "T1") (py "Show transactions") t0 = (Ret r, w')
       /\ TestExec.clarification_requested r = true
       /\ TestExec.execution_status r = TestExec.CLARIFICATION_REQUESTED
       /\ TestExec.store_calls w' = TestExec.store_calls t0.
Proof.
  intros llm store a0 t0.
  assert (H : startswith (py "CLARIFICATION: which period?")
                CLARIFICATION_MARKER = true) by reflexivity.
  pose proof (@C2_clarification_skips_store (py "schema") llm store
                (fun n => inject_Z (Z.of_nat n)) true true (py "db") (py "db")
                (py "CLARIFICATION: which period?") H) as [A T].
  split; [exact H|]; split.
  - exact (proj1 (proj2 (A (py "Show transactions") a0 eq_refl))).
  - exact (T (py "T1") (py "Show transactions") t0 eq_refl).
Defined.

(** C6, as stated, fails for the chat script: its [run_query] has no handler
    and a failure of the store leaves it as an exception. *)
Lemma C6_app_run_query_raises_counterexample :
  fst (App.run_query
         (fun _ : str => Raise (py "no such table: nonexistent_table"))
         (py "SELECT * FROM nonexistent_table")
         {| App.messages := []; App.results := []; App.page := [];
            App.store_calls := [] |})
  = Raise (py "no such table: nonexistent_table").
Proof. reflexivity. Qed.

(** C6, amended: the harness's [run_query] returns [(rows, None)] when the
    store answers and [(None, message)] when it raises or when the database
    file is not found, and never raises.  The chat script's [run_query]
    returns the rows alone and lets the store's exception through; the
    handler of the response that calls it catches that exception, so the
    round itself does not raise. *)
Theorem C6_run_query_boundaries
    (read_sql_query : str -> result DataFrame)
    (db_path_exists alt_db_path_exists : bool) (db_abspath alt_db_path : str)
    (q : str) :
  (forall w,
      fst (TestExec.run_query read_sql_query db_path_exists
             alt_db_path_exists db_abspath alt_db_path q w)
      = if database_found db_path_exists alt_db_path_exists then
          match read_sql_query q with
          | Ret df => Ret (Some df, None)
          | Raise e => Ret (None, Some e)
          end
        else Ret (None, Some (not_found_message db_abspath alt_db_path)))
  /\ (forall w, fst (App.run_query read_sql_query q w) = read_sql_query q)
  /\ (forall response w,
         fst (App.handle_response read_sql_query response w) = Ret tt).
Proof.
  split; [|split].
  - intros w; rewrite run_query_cases.
    destruct (database_found _ _); [destruct (read_sql_query q)|];
      reflexivity.
  - intros w; reflexivity.
  - intros response w; apply handle_response_returns.
Qed.

(** C7, as stated, fails: with an empty response the advisory is also stored
    as an assistant turn. *)
Lemma C7_empty_response_counterexample :
  App.messages
    (snd (App.script_run (py "schema")
            (fun _ : list Message => Ret (py ""))
            (fun _ : str => @Ret DataFrame [])
            (Some (py "Show transactions"))
            {| App.messages := []; App.results := []; App.page := [];
               App.store_calls := [] |}))
  = [ {| App.role := py "user"; App.content := py "Show transactions" |};
      {| App.role := py "assistant"; App.content := App.WARNING_MESSAGE |} ].
Proof. reflexivity. Qed.

Lemma warning_is_no_clarification :
  App.mentions_clarification App.WARNING_MESSAGE = false.
Proof. vm_compute; reflexivity. Qed.

(** C7, amended: when the inference call returns an empty response, the
    round shows the advisory, stores it as an assistant turn and sends
    nothing to the store; the advisory does not contain "clarification", so
    the next non-empty text is appended as a new user turn. *)
Theorem C7_empty_response_advisory
    (system_prompt : str) (llm_invoke : list Message -> result str)
    (read_sql_query : str -> result DataFrame) (u : str) (w : App.World) :
  llm_invoke (request_of system_prompt (snd (App.accept_user_input u w)))
  = Ret [] ->
  let out := App.on_chat_input system_prompt llm_invoke read_sql_query u w in
  fst out = Ret tt
  /\ App.messages (snd out)
     = App.messages (snd (App.accept_user_input u w))
       ++ [ {| App.role := py "assistant";
               App.content := App.WARNING_MESSAGE |} ]
  /\ App.page (snd out)
     = App.page (snd (App.accept_user_input u w))
       ++ [App.UiWarning App.WARNING_MESSAGE]
  /\ App.store_calls (snd out) = App.store_calls w
  /\ App.results (snd out) = App.results w
  /\ forall u', u' <> [] ->
       App.messages (snd (App.accept_user_input u' (snd out)))
       = App.messages (snd out)
         ++ [ {| App.role := py "user"; App.content := u' |} ].
Proof.
  intros L out; subst out.
  rewrite on_chat_input_unfold, L; cbv beta iota.
  rewrite (handle_response_nothing read_sql_query (Some [])
             (snd (App.accept_user_input u w)) eq_refl).
  destruct (accept_user_input_frame u w) as [_ [R S]].
  simpl; repeat split; auto.
  intros u' N.
  rewrite (@accept_user_input_appends _ u' N); [reflexivity|].
  intros front prev last E; simpl in E.
  change [prev; last] with ([prev] ++ [last]) in E.
  rewrite app_assoc in E; apply app_inj_tail in E; destruct E as [_ <-].
  exact warning_is_no_clarification.
Qed.

Lemma C7_empty_response_advisory_witness :
  let llm := fun _ : list Message => Ret (py "") in
  let store := fun _ : str => @Ret DataFrame [] in
  let w0 := {| App.messages := []; App.results := []; App.page := [];
               App.store_calls := [] |} in
  let out := App.on_chat_input (py "schema") llm store
               (py "Show transactions") w0 in
  App.page (snd out)
  = [App.UiMarkdown (py "Show transactions");
     App.UiWarning App.WARNING_MESSAGE]
  /\ App.store_calls (snd out) = [].
Proof.
  intros llm store w0 out.
  pose proof (@C7_empty_response_advisory (py "schema") llm store
                (py "Show transactions") w0 eq_refl) as [_ [_ [P [S _]]]].
  split; [exact P | exact S].
Defined.

(** ** The harness: results and statistics *)

(** C8: every test case yields a result, and on it the status is
    CLARIFICATION_REQUESTED exactly when [clarification_requested] is set,
    and [result_count] is 0 unless the status is PASSED. *)
Theorem C8_test_result_consistent
    (system_prompt : str) (llm_invoke : list Message -> result str)
    (read_sql_query : str -> result DataFrame) (now : nat -> Q)
    (db_path_exists alt_db_path_exists : bool) (db_abspath alt_db_path : str)
    (tid q : str) (w : TestExec.World) :
  exists r w',
    TestExec.execute_test_case system_prompt llm_invoke read_sql_query now
      db_path_exists alt_db_path_exists db_abspath alt_db_path tid q w
    = (Ret r, w')
    /\ consistent r.
Proof.
  destruct status_distinct as [D1 [D2 D3]].
  destruct (startswith (answer system_prompt llm_invoke q)
              CLARIFICATION_MARKER) eqn:H.
  - rewrite (@execute_clarification system_prompt llm_invoke read_sql_query
               now db_path_exists alt_db_path_exists db_abspath alt_db_path
               tid q w H).
    eexists; eexists; split; [reflexivity|].
    split; simpl; [tauto | intros _; reflexivity].
  - rewrite (@execute_sql system_prompt llm_invoke read_sql_query
               now db_path_exists alt_db_path_exists db_abspath alt_db_path
               tid q w H); cbv zeta.
    destruct (@run_query_returns read_sql_query db_path_exists
                alt_db_path_exists db_abspath alt_db_path
                (extract_sql (answer system_prompt llm_invoke q)) (ticked w))
      as [[df err] E].
    rewrite E; destruct (truthy err);
      (eexists; eexists; split; [reflexivity|]); split; simpl;
      try (split; [intros X; congruence | discriminate]).
    + intros _; reflexivity.
    + congruence.
Qed.

(** C10: when the inference call raises, [generate_sql] returns the text
    "Error generating SQL: " followed by the message; the case still yields
    a result, whose SQL is the extraction of that text, which is sent to the
    store when the database file is found; [clarification_requested] is
    unset and the status is FAILED or PASSED by the error of [run_query]. *)
Theorem C10_inference_failure_runs_as_sql
    (system_prompt : str) (llm_invoke : list Message -> result str)
    (read_sql_query : str -> result DataFrame) (now : nat -> Q)
    (db_path_exists alt_db_path_exists : bool) (db_abspath alt_db_path : str)
    (tid q : str) (w : TestExec.World) (e : str) :
  llm_invoke [SystemMessage system_prompt; HumanMessage q] = Raise e ->
  let text := py "Error generating SQL: " ++ e in
  let run_query :=
    TestExec.run_query read_sql_query db_path_exists alt_db_path_exists
      db_abspath alt_db_path in
  TestExec.generate_sql system_prompt llm_invoke q w = (Ret text, w)
  /\ exists r w' out,
       TestExec.execute_test_case system_prompt llm_invoke read_sql_query now
         db_path_exists alt_db_path_exists db_abspath alt_db_path tid q w
       = (Ret r, w')
       /\ TestExec.generated_sql r = extract_sql text
       /\ TestExec.clarification_requested r = false
       /\ fst (run_query (extract_sql text) (ticked w)) = Ret out
       /\ TestExec.execution_status r
          = (if truthy (snd out) then TestExec.FAILED else TestExec.PASSED)
       /\ TestExec.store_calls w'
          = if database_found db_path_exists alt_db_path_exists
            then TestExec.store_calls w ++ [extract_sql text]
            else TestExec.store_calls w.
Proof.
  intros L text run_query.
  assert (A : answer system_prompt llm_invoke q = text)
    by (unfold answer; rewrite L; reflexivity).
  split.
  - rewrite generate_sql_cases, A; reflexivity.
  - assert (H : startswith (answer system_prompt llm_invoke q)
                  CLARIFICATION_MARKER = false)
      by (rewrite A; apply error_text_is_no_clarification).
    rewrite (@execute_sql system_prompt llm_invoke read_sql_query
               now db_path_exists alt_db_path_exists db_abspath alt_db_path
               tid q w H); cbv zeta.
    rewrite A; subst run_query; rewrite run_query_cases.
    destruct (database_found db_path_exists alt_db_path_exists);
      [destruct (read_sql_query (extract_sql text)) as [df|err]|]; simpl fst.
    + do 3 eexists; split; [reflexivity|]; simpl; auto.
    + destruct err as [|c err];
        (do 3 eexists; split; [reflexivity|]); simpl; auto.
    + do 3 eexists; split; [reflexivity|]; simpl; auto.
Qed.

Lemma C10_inference_failure_runs_as_sql_witness :
  let llm := fun _ : list Message => @Raise str (py "rate limit") in
  let store := fun _ : str => @Raise DataFrame (py "near Error: syntax error") in
  let clock := fun n : nat => inject_Z (Z.of_nat n) in
  let w0 := {| TestExec.store_calls := []; TestExec.clock_reads := 0 |} in
  exists r w',
    TestExec.execute_test_case (py "schema") llm store clock true true
      (py "db") (py "db") (py "T1") (py "List all branches") w0 = (Ret r, w')
    /\ TestExec.generated_sql r = py "Error generating SQL: rate limit"
    /\ TestExec.clarification_requested r = false
    /\ TestExec.execution_status r = TestExec.FAILED
    /\ TestExec.store_calls w' = [py "Error generating SQL: rate limit"].
Proof.
  intros llm store clock w0.
  destruct (@C10_inference_failure_runs_as_sql (py "schema") llm store clock
              true true (py "db") (py "db") (py "T1")
              (py "List all branches") w0 (py "rate limit") eq_refl)
    as [_ [r [w' [out [E [G [C [R [S W]]]]]]]]].
  exists r, w'; split; [exact E|]; split; [exact G|]; split; [exact C|].
  split; [|exact W].
  rewrite S; inversion R; reflexivity.
Defined.

Lemma str_eqb_refl (a : str) : str_eqb a a = true.
Proof.
  induction a as [|c a IH]; [reflexivity|].
  simpl; rewrite Ascii.eqb_refl, IH; reflexivity.
Qed.

Lemma str_eqb_true (a b : str) : str_eqb a b = true -> a = b.
Proof.
  revert b; induction a as [|x a IH]; intros [|y b]; simpl;
    try discriminate; [reflexivity|].
  rewrite andb_true_iff, Ascii.eqb_eq; intros [-> H].
  rewrite (IH b H); reflexivity.
Qed.

(** The count of the code is the number of results with that status. *)
Lemma count_status_is_number (status : str) (rs : list TestExec.TestResult) :
  TestExec.count_status status rs = number_with_status status rs.
Proof.
  unfold TestExec.count_status, number_with_status; f_equal.
  apply filter_ext; intros r.
  destruct (list_eq_dec ascii_dec (TestExec.execution_status r) status)
    as [E | N].
  - rewrite E; apply str_eqb_refl.
  - destruct (str_eqb (TestExec.execution_status r) status) eqn:B;
      [|reflexivity].
    elim N; apply str_eqb_true, B.
Qed.

Lemma py_sum_of_floats (acc : float) (ts : list float) :
  fold_left py_add (map PyFloat ts) (PyFloat acc)
  = PyFloat (float_sum_from acc ts).
Proof.
  revert acc; induction ts as [|t ts IH]; intros acc; [reflexivity|].
  simpl map; simpl fold_left; simpl float_sum_from.
  change (py_add (PyFloat acc) (PyFloat t))
    with (PyFloat (PrimFloat.add acc t)).
  apply IH.
Qed.

Lemma py_sum_execution_times (r : TestExec.TestResult)
    (rs : list TestExec.TestResult) :
  py_sum (TestExec.execution_times (r :: rs))
  = PyFloat (float_sum_from 0 (times_of (r :: rs))).
Proof.
  unfold py_sum, TestExec.execution_times, times_of.
  simpl map; simpl fold_left; simpl float_sum_from.
  change (py_add (PyInt 0)
            (PyFloat (seconds_as_float (TestExec.execution_time r))))
    with (PyFloat (PrimFloat.add 0
                     (seconds_as_float (TestExec.execution_time r)))).
  rewrite <- py_sum_of_floats, map_map; reflexivity.
Qed.

Lemma truediv_by_length (a : pynum) (r : TestExec.TestResult)
    (rs : list TestExec.TestResult) :
  py_truediv a (TestExec.py_len (List.length (r :: rs)))
  = Ret (PyFloat (PrimFloat.div (to_float a)
                    (float_of_int (Z.of_nat (List.length (r :: rs)))))).
Proof.
  unfold py_truediv, TestExec.py_len.
  destruct (Z.eqb_spec (Z.of_nat (List.length (r :: rs))) 0) as [E | _];
    [simpl List.length in E; lia | reflexivity].
Qed.

(** The summary is always returned, with its four counts; the two
    quotients are the int 0 on the empty list and floats otherwise. *)
Lemma summary_defined (rs : list TestExec.TestResult) :
  exists s,
    TestExec.generate_summary_stats rs = Ret s
    /\ TestExec.total_tests s = List.length rs
    /\ TestExec.passed s = TestExec.count_status TestExec.PASSED rs
    /\ TestExec.failed s = TestExec.count_status TestExec.FAILED rs
    /\ TestExec.clarification_count s
       = TestExec.count_status TestExec.CLARIFICATION_REQUESTED rs
    /\ match rs with
       | [] => TestExec.pass_rate s = PyInt 0
               /\ TestExec.average_execution_time s = PyInt 0
       | _ :: _ =>
           TestExec.pass_rate s
           = PyFloat
               (PrimFloat.mul
                  (PrimFloat.div
                     (float_of_int
                        (Z.of_nat (TestExec.count_status TestExec.PASSED rs)))
                     (float_of_int (Z.of_nat (List.length rs))))
                  (float_of_int 100))
           /\ TestExec.average_execution_time s
              = PyFloat
                  (PrimFloat.div (float_sum_from 0 (times_of rs))
                     (float_of_int (Z.of_nat (List.length rs))))
       end.
Proof.
  destruct rs as [|r rs].
  - eexists; split; [reflexivity|]; simpl; repeat split.
  - unfold TestExec.generate_summary_stats.
    change (0 <? List.length (r :: rs)) with true; cbv iota.
    rewrite !truediv_by_length, py_sum_execution_times.
    eexists; split; [reflexivity|].
    cbn [TestExec.total_tests TestExec.passed TestExec.failed
         TestExec.clarification_count TestExec.pass_rate
         TestExec.average_execution_time].
    repeat split.
Qed.

(** C9: the summary is returned for every list of results, the empty one
    included, where the pass rate and the average time are 0 and nothing is
    divided.  On a non-empty list the pass rate is the float
    passed / total * 100 and the average time is the float sum of the
    execution times, added from left to right, divided by their number.
    For instance 58 passed out of 100 give 57.99999999999999, and the times
    0.1, 0.2 and 0.3 give the average 0.20000000000000004. *)
Theorem C9_summary_statistics :
  (forall rs : list TestExec.TestResult,
      exists s,
        TestExec.generate_summary_stats rs = Ret s
        /\ TestExec.total_tests s = List.length rs
        /\ TestExec.passed s = number_with_status TestExec.PASSED rs
        /\ match rs with
           | [] => TestExec.pass_rate s = PyInt 0
                   /\ TestExec.average_execution_time s = PyInt 0
           | _ :: _ =>
               TestExec.pass_rate s
               = PyFloat
                   (PrimFloat.mul
                      (PrimFloat.div
                         (float_of_int
                            (Z.of_nat (number_with_status TestExec.PASSED rs)))
                         (float_of_int (Z.of_nat (List.length rs))))
                      (float_of_int 100))
               /\ TestExec.average_execution_time s
                  = PyFloat
                      (PrimFloat.div (float_sum_from 0 (times_of rs))
                         (float_of_int (Z.of_nat (List.length rs))))
           end)
  /\ match TestExec.generate_summary_stats
             (repeat (sample_result TestExec.PASSED (1 # 10)) 58
              ++ repeat (sample_result TestExec.FAILED (1 # 10)) 42) with
     | Ret s => TestExec.pass_rate s = PyFloat 0x1.cffffffffffffp+5
     | Raise _ => False
     end
  /\ match TestExec.generate_summary_stats
             [sample_result TestExec.PASSED (1 # 10);
              sample_result TestExec.PASSED (2 # 10);
              sample_result TestExec.PASSED (3 # 10)] with
     | Ret s => TestExec.average_execution_time s
                = PyFloat 0x1.999999999999bp-3
     | Raise _ => False
     end.
Proof.
  split; [|split; vm_compute; reflexivity].
  intros rs.
  destruct (summary_defined rs) as [s [E [T [P [_ [_ M]]]]]].
  exists s; split; [exact E|]; split; [exact T|].
  rewrite <- count_status_is_number; split; [exact P | exact M].
Qed.

(** * Further properties of the code *)

Unset Implicit Arguments.

(** ** The extractor *)

(** X1: the output is cut out of the response in one piece: nothing is
    inserted or reordered, and the output is never longer than the
    response. *)
Theorem X1_extract_is_a_piece (s : str) :
  (exists a b, s = a ++ extract_sql s ++ b)
  /\ List.length (extract_sql s) <= List.length s.
Proof.
  assert (P : exists a b, s = a ++ extract_sql s ++ b).
  { destruct (re_search SELECT_LITERAL s) as [i|] eqn:R.
    - destruct (extract_of_match _ R) as [x [E _]].
      exists (firstn i s), x; rewrite <- E; symmetry; apply firstn_skipn.
    - apply extract_of_no_match, R. }
  split; [exact P|].
  destruct P as [a [b E]]; rewrite E at 2; rewrite !length_app; lia.
Qed.

Lemma letter_check (p c : ascii) :
  In p (py "SELECT") ->
  implb (Ascii.eqb (lower_char p) (lower_char c))
        (negb (isspace c) && negb (Ascii.eqb c ";")) = true.
Proof.
  intros I; simpl in I.
  repeat (destruct I as [<- | I]; [each_ascii c|]); contradiction.
Qed.

Lemma letter_is_kept (p c : ascii) :
  In p (py "SELECT") ->
  Ascii.eqb (lower_char p) (lower_char c) = true ->
  isspace c = false /\ c <> ";"%char.
Proof.
  intros I M; pose proof (letter_check p c I) as H; rewrite M in H.
  simpl in H; apply andb_true_iff in H; destruct H as [W N].
  split; [apply negb_true_iff, W | apply Ascii.eqb_neq, negb_true_iff, N].
Qed.

Lemma ci_prefix_before_tail pat e x :
  (forall p, In p pat -> In p (py "SELECT")) ->
  cut_tail x ->
  ci_prefix pat (e ++ x) = true -> ci_prefix pat e = true.
Proof.
  intros Hp T; revert e; induction pat as [|p pat IH]; intros e;
    [reflexivity|].
  destruct e as [|c e]; simpl.
  - destruct x as [|c x]; [discriminate|].
    rewrite andb_true_iff; intros [M _]; exfalso.
    destruct (letter_is_kept p c (Hp p (or_introl eq_refl)) M) as [W N].
    destruct T as [sp [F [E | E]]].
    + assert (I : In c sp) by (rewrite <- E; left; reflexivity).
      rewrite (space_in_spaces _ _ F I) in W; discriminate.
    + inversion E; congruence.
  - rewrite !andb_true_iff; intros [M Q]; split; [exact M|].
    apply IH; [intros q Iq; apply Hp; right; exact Iq | exact Q].
Qed.

(** X2: the output never begins with white space, and when the pattern
    matches it begins with the letters of SELECT, in the case they have in
    the response. *)
Theorem X2_extract_start (s : str) :
  starts_clean (extract_sql s)
  /\ (forall i, re_search SELECT_LITERAL s = Some i ->
        ci_prefix (py "SELECT") (extract_sql s) = true
        /\ firstn 6 (extract_sql s) = firstn 6 (skipn i s)).
Proof.
  split; [apply extract_starts_clean|].
  intros i R.
  destruct (extract_of_match _ R) as [x [E T]].
  destruct (re_search_Some _ _ R) as [P _].
  apply (ci_prefix_shorter (py "SELECT") (py " ")) in P.
  rewrite E in P.
  assert (Q : ci_prefix (py "SELECT") (extract_sql s) = true).
  { apply (ci_prefix_before_tail (py "SELECT") _ x); auto. }
  split; [exact Q|].
  rewrite E, firstn_app.
  pose proof (ci_prefix_length _ _ Q) as L.
  change (List.length (py "SELECT")) with 6 in L.
  replace (6 - List.length (extract_sql s)) with 0 by lia.
  simpl; rewrite app_nil_r; reflexivity.
Qed.

Lemma dropwhile_spaces_app (a b : str) :
  forallb isspace a = true ->
  dropwhile isspace (a ++ b) = dropwhile isspace b.
Proof.
  induction a as [|c a IH]; simpl; [reflexivity|].
  rewrite andb_true_iff; intros [W F]; rewrite W; auto.
Qed.

Lemma rstrip_app_spaces (x sp : str) :
  forallb isspace sp = true -> rstrip (x ++ sp) = rstrip x.
Proof.
  intros F; unfold rstrip.
  rewrite rev_app_distr, dropwhile_spaces_app by (apply forallb_rev, F).
  reflexivity.
Qed.

Lemma re_search_after_spaces (sp t : str) :
  forallb isspace sp = true ->
  ci_prefix SELECT_LITERAL t = true ->
  re_search SELECT_LITERAL (sp ++ t) = Some (List.length sp).
Proof.
  intros F P; induction sp as [|c sp IH]; simpl app.
  - apply re_search_at_head, P.
  - simpl in F; apply andb_true_iff in F; destruct F as [W F].
    rewrite re_search_unfold.
    destruct (ci_prefix SELECT_LITERAL (c :: sp ++ t)) eqn:M.
    + rewrite (match_starts_clean M eq_refl) in W; discriminate.
    + rewrite (IH F); reflexivity.
Qed.

Lemma candidate_of_wrapped (sp1 t sp2 : str) :
  forallb isspace sp1 = true -> forallb isspace sp2 = true ->
  ci_prefix SELECT_LITERAL t = true -> ends_clean t ->
  candidate (sp1 ++ t ++ sp2) = t.
Proof.
  intros F1 F2 P C; unfold candidate, group0.
  rewrite (re_search_after_spaces sp1 (t ++ sp2) F1 (ci_prefix_app _ _ sp2 P)).
  rewrite skipn_app, skipn_all, Nat.sub_diag; simpl.
  unfold strip.
  rewrite (lstrip_fix (match_starts_clean (ci_prefix_app _ _ sp2 P))).
  rewrite (rstrip_app_spaces _ _ F2); apply rstrip_fix, C.
Qed.

(** X3: a statement that starts with SELECT and a space and ends neither in
    white space nor in ';' is recovered exactly when the response wraps it
    in white space, with or without one terminator after it. *)
Theorem X3_extract_recovers_wrapped_statement (stmt sp1 sp2 : str) :
  ci_prefix SELECT_LITERAL stmt = true ->
  settled stmt = true ->
  forallb isspace sp1 = true ->
  forallb isspace sp2 = true ->
  extract_sql (sp1 ++ stmt ++ sp2) = stmt
  /\ extract_sql (sp1 ++ stmt ++ ";"%char :: sp2) = stmt.
Proof.
  intros P S F1 F2; split; unfold extract_sql.
  - rewrite (candidate_of_wrapped sp1 stmt sp2 F1 F2 P (settled_ends_clean _ S)).
    rewrite (settled_no_terminator _ S); reflexivity.
  - change (stmt ++ ";"%char :: sp2) with (stmt ++ [";"%char] ++ sp2).
    rewrite (app_assoc stmt).
    rewrite (candidate_of_wrapped sp1 (stmt ++ [";"%char]) sp2 F1 F2).
    + assert (E : endswith (stmt ++ [";"%char]) (py ";") = true)
        by (apply endswith_char; eauto).
      rewrite E; apply removelast_last.
    + apply ci_prefix_app, P.
    + intros c t R; rewrite rev_app_distr in R; simpl in R.
      inversion R; reflexivity.
Qed.

Lemma X3_extract_recovers_wrapped_statement_witness :
  extract_sql (py "  SELECT * FROM branches  ") = py "SELECT * FROM branches"
  /\ extract_sql (py "  SELECT * FROM branches;  ") = py "SELECT * FROM branches".
Proof.
  exact (@X3_extract_recovers_wrapped_statement
           (py "SELECT * FROM branches") (py "  ") (py "  ")
           eq_refl eq_refl eq_refl eq_refl).
Defined.

(** ** The chat round *)

(** X4: a round consults the inference service through one request only,
    the system prompt twice and then the stored turns: two services that
    answer that request alike give the same round. *)
Theorem X4_round_depends_on_one_request
    (system_prompt : str) (llm1 llm2 : list Message -> result str)
    (read_sql_query : str -> result DataFrame) (u : str) (w : App.World) :
  llm1 (request_of system_prompt (snd (App.accept_user_input u w)))
  = llm2 (request_of system_prompt (snd (App.accept_user_input u w))) ->
  App.on_chat_input system_prompt llm1 read_sql_query u w
  = App.on_chat_input system_prompt llm2 read_sql_query u w.
Proof. intros H; rewrite !on_chat_input_unfold, H; reflexivity. Qed.

Lemma X4_round_depends_on_one_request_witness :
  let w0 := {| App.messages := []; App.results := []; App.page := [];
               App.store_calls := [] |} in
  let llm1 := fun _ : list Message => Ret (py "SELECT 1") in
  let llm2 := fun ms : list Message =>
                match ms with
                | [_; _; HumanMessage _] => Ret (py "SELECT 1")
                | _ => Raise (py "unexpected request")
                end in
  let store := fun _ : str => @Ret DataFrame [[py "1"]] in
  App.on_chat_input (py "schema") llm1 store (py "one") w0
  = App.on_chat_input (py "schema") llm2 store (py "one") w0.
Proof.
  intros w0 llm1 llm2 store.
  exact (X4_round_depends_on_one_request (py "schema") llm1 llm2 store
           (py "one") w0 eq_refl).
Defined.

Lemma nonempty_cons (r : str) : r <> [] -> exists c s, r = c :: s.
Proof. destruct r as [|c s]; [congruence | eauto]. Qed.

(** X5: when the response is SQL and the store answers, the round sends the
    extracted statement to the store once, records it with the rows, and
    stores the extracted statement, not the raw response, as the assistant
    turn. *)
Theorem X5_round_with_rows
    (system_prompt : str) (llm_invoke : list Message -> result str)
    (read_sql_query : str -> result DataFrame)
    (u response : str) (result_df : DataFrame) (w : App.World) :
  llm_invoke (request_of system_prompt (snd (App.accept_user_input u w)))
  = Ret response ->
  response <> [] ->
  startswith response CLARIFICATION_MARKER = false ->
  read_sql_query (extract_sql response) = Ret result_df ->
  let w1 := snd (App.accept_user_input u w) in
  App.on_chat_input system_prompt llm_invoke read_sql_query u w
  = (Ret tt,
     {| App.messages :=
          App.messages w1
          ++ [ {| App.role := py "assistant";
                  App.content := extract_sql response |} ];
        App.results :=
          App.results w
          ++ [ {| App.sql := extract_sql response; App.data := result_df |} ];
        App.page := App.page w1 ++ [App.UiCode (extract_sql response)];
        App.store_calls := App.store_calls w ++ [extract_sql response] |}).
Proof.
  intros L N H R w1; subst w1.
  destruct (nonempty_cons response N) as [c [s ->]].
  rewrite on_chat_input_unfold, L; cbv beta iota.
  rewrite (handle_response_sql read_sql_query c s _ H), R.
  destruct (accept_user_input_frame u w) as [_ [-> ->]]; reflexivity.
Qed.

Lemma X5_round_with_rows_witness :
  let w0 := {| App.messages := []; App.results := []; App.page := [];
               App.store_calls := [] |} in
  let llm := fun _ : list Message => Ret (py "Sure: SELECT * FROM branches;") in
  let store := fun _ : str => @Ret DataFrame [[py "1"; py "Pune"]] in
  App.results
    (snd (App.on_chat_input (py "schema") llm store (py "List all branches") w0))
  = [ {| App.sql := py "SELECT * FROM branches";
         App.data := [[py "1"; py "Pune"]] |} ].
Proof.
  intros w0 llm store.
  assert (N : py "Sure: SELECT * FROM branches;" <> []) by discriminate.
  rewrite (X5_round_with_rows (py "schema") llm store (py "List all branches")
             (py "Sure: SELECT * FROM branches;") [[py "1"; py "Pune"]] w0
             eq_refl N eq_refl eq_refl).
  reflexivity.
Defined.

(** X6: when the store raises on the extracted statement, the round still
    ends normally: nothing is recorded in the results, the error is shown,
    and the assistant turn is "Error running query: " followed by the
    message of the exception. *)
Theorem X6_round_with_store_error
    (system_prompt : str) (llm_invoke : list Message -> result str)
    (read_sql_query : str -> result DataFrame)
    (u response e : str) (w : App.World) :
  llm_invoke (request_of system_prompt (snd (App.accept_user_input u w)))
  = Ret response ->
  response <> [] ->
  startswith response CLARIFICATION_MARKER = false ->
  read_sql_query (extract_sql response) = Raise e ->
  let w1 := snd (App.accept_user_input u w) in
  App.on_chat_input system_prompt llm_invoke read_sql_query u w
  = (Ret tt,
     {| App.messages :=
          App.messages w1
          ++ [ {| App.role := py "assistant";
                  App.content := py "Error running query: " ++ e |} ];
        App.results := App.results w;
        App.page :=
          (App.page w1 ++ [App.UiCode (extract_sql response)])
          ++ [App.UiError (py "Error running query: " ++ e)];
        App.store_calls := App.store_calls w ++ [extract_sql response] |}).
Proof.
  intros L N H R w1; subst w1.
  destruct (nonempty_cons response N) as [c [s ->]].
  rewrite on_chat_input_unfold, L; cbv beta iota.
  rewrite (handle_response_sql read_sql_query c s _ H), R.
  destruct (accept_user_input_frame u w) as [_ [-> ->]]; reflexivity.
Qed.

Lemma X6_round_with_store_error_witness :
  let w0 := {| App.messages := []; App.results := []; App.page := [];
               App.store_calls := [] |} in
  let llm := fun _ : list Message => Ret (py "SELECT * FROM nonexistent_table") in
  let store := fun _ : str =>
                 @Raise DataFrame (py "no such table: nonexistent_table") in
  let out := App.on_chat_input (py "schema") llm store (py "List it") w0 in
  fst out = Ret tt
  /\ App.results (snd out) = []
  /\ App.messages (snd out)
     = [ {| App.role := py "user"; App.content := py "List it" |};
         {| App.role := py "assistant";
            App.content :=
              py "Error running query: no such table: nonexistent_table" |} ].
Proof.
  intros w0 llm store out; subst out.
  assert (N : py "SELECT * FROM nonexistent_table" <> []) by discriminate.
  rewrite (X6_round_with_store_error (py "schema") llm store (py "List it")
             (py "SELECT * FROM nonexistent_table")
             (py "no such table: nonexistent_table") w0
             eq_refl N eq_refl eq_refl).
  repeat split.
Defined.

(** What the handler of the response adds to the world, in every branch. *)
Lemma handle_response_effect
    (read_sql_query : str -> result DataFrame) (response : option str)
    (w : App.World) :
  exists text pg qs rs,
    App.handle_response read_sql_query response w
    = (Ret tt,
       {| App.messages :=
            App.messages w
            ++ [ {| App.role := py "assistant"; App.content := text |} ];
          App.results := App.results w ++ rs;
          App.page := App.page w ++ pg;
          App.store_calls := App.store_calls w ++ qs |})
    /\ ((qs = [] /\ rs = [])
        \/ exists q, qs = [q]
             /\ (rs = [] \/ exists df, rs = [ {| App.sql := q; App.data := df |} ])).
Proof.
  destruct (truthy response) eqn:T.
  - destruct response as [[|c s]|]; try discriminate.
    destruct (startswith (c :: s) CLARIFICATION_MARKER) eqn:H.
    + rewrite (handle_response_clarification read_sql_query _ w H).
      do 4 eexists; split;
        [rewrite (app_nil_r (App.results w)), (app_nil_r (App.store_calls w));
         reflexivity | left; auto].
    + rewrite (handle_response_sql read_sql_query c s w H).
      destruct (read_sql_query (extract_sql (c :: s))) as [df|e].
      * do 4 eexists; split; [reflexivity|].
        right; eexists; split; [reflexivity | right; eauto].
      * do 4 eexists; split;
          [rewrite (app_nil_r (App.results w)), <- app_assoc; reflexivity|].
        right; eexists; split; [reflexivity | left; reflexivity].
  - rewrite (handle_response_nothing read_sql_query response w T).
    do 4 eexists; split;
      [rewrite (app_nil_r (App.results w)), (app_nil_r (App.store_calls w));
       reflexivity | left; auto].
Qed.

Lemma accept_user_input_messages (u : str) (w : App.World) :
  let after := App.messages (snd (App.accept_user_input u w)) in
  after = App.messages w
  \/ after = App.messages w ++ [ {| App.role := py "user"; App.content := u |} ]
  \/ exists front prev last,
       App.messages w = front ++ [prev; last]
       /\ after = front ++ [ {| App.role := App.role prev;
                                App.content :=
                                  App.content prev ++ py " " ++ u |};
                             last ].
Proof.
  cbv zeta.
  destruct (Nat.lt_ge_cases (List.length (App.messages w)) 2) as [L|L].
  - rewrite (accept_user_input_short u w L).
    destruct u; simpl; auto.
  - destruct (two_last _ L) as [front [prev [last E]]].
    rewrite (accept_user_input_two_last u w front prev last E).
    destruct (App.mentions_clarification (App.content last)).
    + right; right; exists front, prev, last; auto.
    + destruct u; simpl; auto.
Qed.

Lemma accept_user_input_length (u : str) (w : App.World) :
  let n := List.length (App.messages (snd (App.accept_user_input u w))) in
  List.length (App.messages w) <= n <= S (List.length (App.messages w)).
Proof.
  cbv zeta.
  destruct (accept_user_input_messages u w) as [E | [E | [f [p [l [E1 E2]]]]]];
    rewrite E || rewrite E2, E1; rewrite ?length_app; simpl; lia.
Qed.

(** X7: whatever the services answer, one run of the script sends at most
    one statement to the store, records at most one result, and a recorded
    result carries the statement that was sent; the stored turns are never
    fewer afterwards and at most two more. *)
Theorem X7_run_effects_are_bounded
    (system_prompt : str) (llm_invoke : list Message -> result str)
    (read_sql_query : str -> result DataFrame)
    (chat_input : option str) (w : App.World) :
  let out :=
    snd (App.script_run system_prompt llm_invoke read_sql_query chat_input w) in
  (exists qs rs,
      App.store_calls out = App.store_calls w ++ qs
      /\ App.results out = App.results w ++ rs
      /\ ((qs = [] /\ rs = [])
          \/ exists q, qs = [q]
               /\ (rs = []
                   \/ exists df, rs = [ {| App.sql := q; App.data := df |} ])))
  /\ List.length (App.messages w) <= List.length (App.messages out)
     <= List.length (App.messages w) + 2.
Proof.
  assert (Same : forall w' : App.World,
             App.store_calls w' = App.store_calls w ->
             App.results w' = App.results w ->
             exists qs rs,
               App.store_calls w' = App.store_calls w ++ qs
               /\ App.results w' = App.results w ++ rs
               /\ ((qs = [] /\ rs = [])
                   \/ exists q, qs = [q]
                        /\ (rs = []
                            \/ exists df,
                                 rs = [ {| App.sql := q; App.data := df |} ]))).
  { intros w' S R; exists [], []; rewrite !app_nil_r; auto. }
  destruct chat_input as [[|c u]|]; cbv zeta;
    try (simpl; split; [apply Same; reflexivity | lia]).
  unfold App.script_run; rewrite on_chat_input_unfold.
  destruct (accept_user_input_frame (c :: u) w) as [_ [R S]].
  pose proof (accept_user_input_length (c :: u) w) as Len; cbv zeta in Len.
  destruct (llm_invoke _) as [response|e].
  - destruct (handle_response_effect read_sql_query (Some response)
                (snd (App.accept_user_input (c :: u) w)))
      as [text [pg [qs [rs [E H]]]]].
    rewrite E; simpl; rewrite R, S; split.
    + exists qs, rs; auto.
    + rewrite length_app; simpl; lia.
  - simpl; split; [apply Same; assumption | lia].
Qed.

Lemma assistant_turn_well_roled (ms : list App.Turn) (text : str) :
  well_roled ms ->
  well_roled (ms ++ [ {| App.role := py "assistant"; App.content := text |} ]).
Proof.
  intros H; apply Forall_app; split; [exact H|].
  constructor; [right; reflexivity | constructor].
Qed.

Lemma accept_user_input_well_roled (u : str) (w : App.World) :
  well_roled (App.messages w) ->
  well_roled (App.messages (snd (App.accept_user_input u w))).
Proof.
  intros H.
  destruct (accept_user_input_messages u w) as [E | [E | [f [p [l [E1 E2]]]]]].
  - rewrite E; exact H.
  - rewrite E; apply Forall_app; split; [exact H|].
    constructor; [left; reflexivity | constructor].
  - rewrite E2; rewrite E1 in H.
    apply Forall_app in H; destruct H as [Hf Hl].
    apply Forall_app; split; [exact Hf|].
    inversion Hl as [|? ? Hp Hl']; subst.
    constructor; [exact Hp | exact Hl'].
Qed.

(** X8: the script only ever stores turns whose role is "user" or
    "assistant": if that holds before a run, it holds after it, whatever
    the input and whatever the services answer. *)
Theorem X8_roles_are_kept
    (system_prompt : str) (llm_invoke : list Message -> result str)
    (read_sql_query : str -> result DataFrame)
    (chat_input : option str) (w : App.World) :
  well_roled (App.messages w) ->
  well_roled
    (App.messages
       (snd (App.script_run system_prompt llm_invoke read_sql_query
               chat_input w))).
Proof.
  intros H; destruct chat_input as [[|c u]|]; try exact H.
  unfold App.script_run; rewrite on_chat_input_unfold.
  pose proof (accept_user_input_well_roled (c :: u) w H) as H1.
  destruct (llm_invoke _) as [response|e]; [|exact H1].
  destruct (handle_response_effect read_sql_query (Some response)
              (snd (App.accept_user_input (c :: u) w)))
    as [text [pg [qs [rs [E _]]]]].
  rewrite E; simpl; apply assistant_turn_well_roled, H1.
Qed.

Lemma X8_roles_are_kept_witness :
  well_roled
    (App.messages
       (snd (App.script_run (py "schema")
               (fun _ : list Message => Ret (py "SELECT 1"))
               (fun _ : str => @Ret DataFrame [])
               (Some (py "one"))
               {| App.messages := []; App.results := []; App.page := [];
                  App.store_calls := [] |}))).
Proof.
  apply X8_roles_are_kept; constructor.
Defined.

(** X9: for turns with those two roles the history sent to the inference
    service has one message per turn, in the order of the turns and with
    their contents, a human message for a user turn and an AI message for an
    assistant turn; no system message comes from the history. *)
Theorem X9_history_keeps_every_turn (ms : list App.Turn) :
  well_roled ms ->
  map message_content (App.api_history ms) = map App.content ms
  /\ Forall2 (fun t m =>
                (App.role t = py "user" /\ m = HumanMessage (App.content t))
                \/ (App.role t = py "assistant"
                    /\ m = AIMessage (App.content t)))
       ms (App.api_history ms).
Proof.
  induction 1 as [|t ms Ht Hms [IH1 IH2]]; [split; constructor|].
  destruct Ht as [R | R]; simpl; rewrite R; simpl; rewrite IH1;
    (split; [reflexivity|]); constructor; auto.
Qed.

Lemma X9_history_keeps_every_turn_witness :
  map message_content
    (App.api_history
       [ {| App.role := py "user"; App.content := py "Show transactions" |};
         {| App.role := py "assistant"; App.content := py "which period?" |} ])
  = [py "Show transactions"; py "which period?"].
Proof.
  refine (proj1 (X9_history_keeps_every_turn _ _)).
  constructor; [left; reflexivity|].
  constructor; [right; reflexivity | constructor].
Defined.

(** Two worlds with the same stored turns and results keep the same stored
    turns and results through a run. *)
Lemma accept_user_input_agree (u : str) (a b : App.World) :
  App.messages a = App.messages b ->
  App.messages (snd (App.accept_user_input u a))
  = App.messages (snd (App.accept_user_input u b)).
Proof.
  intros H.
  destruct (Nat.lt_ge_cases (List.length (App.messages a)) 2) as [L|L].
  - rewrite (accept_user_input_short u a L).
    rewrite H in L; rewrite (accept_user_input_short u b L).
    destruct u; simpl; rewrite H; reflexivity.
  - destruct (two_last _ L) as [front [prev [last E]]].
    rewrite (accept_user_input_two_last u a front prev last E).
    rewrite H in E; rewrite (accept_user_input_two_last u b front prev last E).
    destruct (App.mentions_clarification (App.content last));
      [reflexivity | destruct u; simpl; rewrite H; reflexivity].
Qed.

Lemma handle_response_agree
    (read_sql_query : str -> result DataFrame) (response : option str)
    (a b : App.World) :
  App.messages a = App.messages b ->
  App.results a = App.results b ->
  App.messages (snd (App.handle_response read_sql_query response a))
  = App.messages (snd (App.handle_response read_sql_query response b))
  /\ App.results (snd (App.handle_response read_sql_query response a))
     = App.results (snd (App.handle_response read_sql_query response b)).
Proof.
  intros Hm Hr.
  destruct (truthy response) eqn:T.
  - destruct response as [[|c s]|]; try discriminate.
    destruct (startswith (c :: s) CLARIFICATION_MARKER) eqn:H.
    + rewrite !(handle_response_clarification read_sql_query _ _ H); simpl.
      rewrite Hm, Hr; auto.
    + rewrite !(handle_response_sql read_sql_query c s _ H).
      destruct (read_sql_query _); simpl; rewrite Hm, Hr; auto.
  - rewrite !(handle_response_nothing read_sql_query response _ T); simpl.
    rewrite Hm, Hr; auto.
Qed.

Lemma script_run_agree
    (system_prompt : str) (llm_invoke : list Message -> result str)
    (read_sql_query : str -> result DataFrame)
    (chat_input : option str) (a b : App.World) :
  App.messages a = App.messages b ->
  App.results a = App.results b ->
  let run := App.script_run system_prompt llm_invoke read_sql_query chat_input in
  fst (run a) = fst (run b)
  /\ App.messages (snd (run a)) = App.messages (snd (run b))
  /\ App.results (snd (run a)) = App.results (snd (run b)).
Proof.
  intros Hm Hr run; subst run.
  destruct chat_input as [[|c u]|]; try (simpl; auto).
  unfold App.script_run; rewrite !on_chat_input_unfold.
  pose proof (accept_user_input_agree (c :: u) a b Hm) as Am.
  destruct (accept_user_input_frame (c :: u) a) as [_ [Ra _]].
  destruct (accept_user_input_frame (c :: u) b) as [_ [Rb _]].
  unfold request_of; rewrite Am.
  destruct (llm_invoke _) as [response|e].
  - rewrite !handle_response_returns; split; [reflexivity|].
    apply handle_response_agree; [exact Am | congruence].
  - simpl; repeat split; congruence.
Qed.

(** X10: after "Clear Chat History" both logs are empty, and the next run
    stores and records exactly what it would in a new session: nothing of
    the earlier conversation is left to influence it. *)
Theorem X10_clear_starts_afresh
    (system_prompt : str) (llm_invoke : list Message -> result str)
    (read_sql_query : str -> result DataFrame)
    (chat_input : option str) (w : App.World) :
  let cleared := snd (App.clear_chat_history w) in
  let fresh := {| App.messages := []; App.results := []; App.page := [];
                  App.store_calls := [] |} in
  let run := App.script_run system_prompt llm_invoke read_sql_query chat_input in
  App.messages cleared = [] /\ App.results cleared = []
  /\ fst (run cleared) = fst (run fresh)
  /\ App.messages (snd (run cleared)) = App.messages (snd (run fresh))
  /\ App.results (snd (run cleared)) = App.results (snd (run fresh)).
Proof.
  intros cleared fresh run.
  split; [reflexivity|]; split; [reflexivity|].
  apply (script_run_agree system_prompt llm_invoke read_sql_query chat_input
           cleared fresh); reflexivity.
Qed.

(** ** The harness: one test case *)

Section HarnessCases.

Variable system_prompt : str.
Variable llm_invoke : list Message -> result str.
Variable read_sql_query : str -> result DataFrame.
Variable now : nat -> Q.
Variables db_path_exists alt_db_path_exists : bool.
Variables db_abspath alt_db_path : str.

Let execute_test_case :=
  TestExec.execute_test_case system_prompt llm_invoke read_sql_query now
    db_path_exists alt_db_path_exists db_abspath alt_db_path.
Let found := database_found db_path_exists alt_db_path_exists.
Let reply := answer system_prompt llm_invoke.

(** The result of a case whose answer is not a clarification, by what the
    database does with the extracted statement. *)
Lemma execute_sql_cases (tid q : str) (w : TestExec.World) :
  startswith (reply q) CLARIFICATION_MARKER = false ->
  let sql := extract_sql (reply q) in
  let failed := fun (e : str) =>
    {| TestExec.test_id := tid; TestExec.query := q;
       TestExec.generated_sql := sql;
       TestExec.execution_status := TestExec.FAILED;
       TestExec.execution_time := elapsed now w;
       TestExec.result_count := 0;
       TestExec.error_message := Some e;
       TestExec.clarification_requested := false |} in
  let passed := fun (n : nat) =>
    {| TestExec.test_id := tid; TestExec.query := q;
       TestExec.generated_sql := sql;
       TestExec.execution_status := TestExec.PASSED;
       TestExec.execution_time := elapsed now w;
       TestExec.result_count := n;
       TestExec.error_message := None;
       TestExec.clarification_requested := false |} in
  execute_test_case tid q w
  = if found then
      match read_sql_query sql with
      | Ret df => (Ret (passed (List.length df)), ticked (sent sql (ticked w)))
      | Raise [] => (Ret (passed 0), ticked (sent sql (ticked w)))
      | Raise (c :: e) => (Ret (failed (c :: e)), ticked (sent sql (ticked w)))
      end
    else (Ret (failed (not_found_message db_abspath alt_db_path)),
          ticked (ticked w)).
Proof.
  intros H; cbv zeta.
  unfold execute_test_case, found, reply in *.
  rewrite (@execute_sql system_prompt llm_invoke read_sql_query now
             db_path_exists alt_db_path_exists db_abspath alt_db_path
             tid q w H); cbv zeta.
  rewrite run_query_cases.
  destruct (database_found _ _);
    [destruct (read_sql_query _) as [df|[|c e]]|]; reflexivity.
Qed.

(** What every case has in common. *)
Lemma execute_test_case_shape (tid q : str) (w : TestExec.World) :
  exists r w',
    execute_test_case tid q w = (Ret r, w')
    /\ TestExec.test_id r = tid /\ TestExec.query r = q
    /\ TestExec.execution_time r = elapsed now w
    /\ TestExec.clock_reads w' = TestExec.clock_reads w + 2
    /\ (TestExec.store_calls w' = TestExec.store_calls w
        \/ TestExec.store_calls w'
           = TestExec.store_calls w ++ [TestExec.generated_sql r])
    /\ known_status r
    /\ consistent r.
Proof.
  unfold known_status, consistent.
  destruct status_distinct as [D1 [D2 D3]].
  destruct (startswith (reply q) CLARIFICATION_MARKER) eqn:H.
  - unfold execute_test_case, reply in *.
    rewrite (@execute_clarification system_prompt llm_invoke read_sql_query
               now db_path_exists alt_db_path_exists db_abspath alt_db_path
               tid q w H).
    do 2 eexists; split; [reflexivity|]; simpl.
    repeat split; auto; lia.
  - rewrite (execute_sql_cases tid q w H); cbv zeta.
    destruct found; [destruct (read_sql_query _) as [df|[|c e]]|];
      (do 2 eexists; split; [reflexivity|]); simpl;
      repeat split; auto; try lia; try congruence; try discriminate.
Qed.

End HarnessCases.

(** X11: when the answer is not a clarification, the database file is found
    and the store returns rows for the extracted statement, the case is
    PASSED, its [result_count] is the number of rows, its [generated_sql] is
    the extracted statement, and that statement was sent to the store. *)
Theorem X11_case_passes_with_row_count
    (system_prompt : str) (llm_invoke : list Message -> result str)
    (read_sql_query : str -> result DataFrame) (now : nat -> Q)
    (db_path_exists alt_db_path_exists : bool) (db_abspath alt_db_path : str)
    (tid q : str) (df : DataFrame) (w : TestExec.World) :
  let sql := extract_sql (answer system_prompt llm_invoke q) in
  startswith (answer system_prompt llm_invoke q) CLARIFICATION_MARKER = false ->
  database_found db_path_exists alt_db_path_exists = true ->
  read_sql_query sql = Ret df ->
  exists r w',
    TestExec.execute_test_case system_prompt llm_invoke read_sql_query now
      db_path_exists alt_db_path_exists db_abspath alt_db_path tid q w
    = (Ret r, w')
    /\ TestExec.execution_status r = TestExec.PASSED
    /\ TestExec.result_count r = List.length df
    /\ TestExec.generated_sql r = sql
    /\ TestExec.error_message r = None
    /\ TestExec.store_calls w' = TestExec.store_calls w ++ [sql].
Proof.
  intros sql H F R; subst sql.
  rewrite (execute_sql_cases system_prompt llm_invoke read_sql_query now
             db_path_exists alt_db_path_exists db_abspath alt_db_path
             tid q w H); cbv zeta.
  rewrite F, R.
  do 2 eexists; split; [reflexivity|]; simpl; auto.
Qed.

Lemma X11_case_passes_with_row_count_witness :
  exists r w',
    TestExec.execute_test_case (py "schema")
      (fun _ : list Message => Ret (py "SELECT * FROM branches"))
      (fun _ : str => @Ret DataFrame [[py "1"; py "Pune"]; [py "2"; py "Goa"]])
      (fun n : nat => inject_Z (Z.of_nat n)) true true (py "db") (py "db")
      (py "T1") (py "List all branches")
      {| TestExec.store_calls := []; TestExec.clock_reads := 0 |}
    = (Ret r, w')
    /\ TestExec.execution_status r = TestExec.PASSED
    /\ TestExec.result_count r = 2
    /\ TestExec.generated_sql r = py "SELECT * FROM branches"
    /\ TestExec.error_message r = None
    /\ TestExec.store_calls w' = [py "SELECT * FROM branches"].
Proof.
  exact (X11_case_passes_with_row_count (py "schema")
           (fun _ : list Message => Ret (py "SELECT * FROM branches"))
           (fun _ : str => @Ret DataFrame [[py "1"; py "Pune"]; [py "2"; py "Goa"]])
           (fun n : nat => inject_Z (Z.of_nat n)) true true (py "db") (py "db")
           (py "T1") (py "List all branches")
           [[py "1"; py "Pune"]; [py "2"; py "Goa"]]
           {| TestExec.store_calls := []; TestExec.clock_reads := 0 |}
           eq_refl eq_refl eq_refl).
Defined.

(** X12: when the store raises on the extracted statement, the case is
    FAILED with the message of the exception kept verbatim and a
    [result_count] of 0, provided that message is not empty; an exception
    with an empty message is reported as PASSED with 0 rows, because the
    error is tested for truth. *)
Theorem X12_case_with_store_exception
    (system_prompt : str) (llm_invoke : list Message -> result str)
    (read_sql_query : str -> result DataFrame) (now : nat -> Q)
    (db_path_exists alt_db_path_exists : bool) (db_abspath alt_db_path : str)
    (tid q e : str) (w : TestExec.World) :
  let sql := extract_sql (answer system_prompt llm_invoke q) in
  startswith (answer system_prompt llm_invoke q) CLARIFICATION_MARKER = false ->
  database_found db_path_exists alt_db_path_exists = true ->
  read_sql_query sql = Raise e ->
  exists r w',
    TestExec.execute_test_case system_prompt llm_invoke read_sql_query now
      db_path_exists alt_db_path_exists db_abspath alt_db_path tid q w
    = (Ret r, w')
    /\ TestExec.generated_sql r = sql
    /\ TestExec.result_count r = 0
    /\ TestExec.store_calls w' = TestExec.store_calls w ++ [sql]
    /\ (e <> [] ->
        TestExec.execution_status r = TestExec.FAILED
        /\ TestExec.error_message r = Some e)
    /\ (e = [] ->
        TestExec.execution_status r = TestExec.PASSED
        /\ TestExec.error_message r = None).
Proof.
  intros sql H F R; subst sql.
  rewrite (execute_sql_cases system_prompt llm_invoke read_sql_query now
             db_path_exists alt_db_path_exists db_abspath alt_db_path
             tid q w H); cbv zeta.
  rewrite F, R.
  destruct e as [|c e]; (do 2 eexists; split; [reflexivity|]); simpl;
    repeat split; auto; try congruence; try discriminate.
Qed.

Lemma X12_case_with_store_exception_witness :
  exists r w',
    TestExec.execute_test_case (py "schema")
      (fun _ : list Message => Ret (py "SELECT * FROM nonexistent_table"))
      (fun _ : str => @Raise DataFrame (py "no such table: nonexistent_table"))
      (fun n : nat => inject_Z (Z.of_nat n)) true true (py "db") (py "db")
      (py "T1") (py "List it")
      {| TestExec.store_calls := []; TestExec.clock_reads := 0 |}
    = (Ret r, w')
    /\ TestExec.execution_status r = TestExec.FAILED
    /\ TestExec.error_message r = Some (py "no such table: nonexistent_table")
    /\ TestExec.result_count r = 0.
Proof.
  destruct (X12_case_with_store_exception (py "schema")
              (fun _ : list Message => Ret (py "SELECT * FROM nonexistent_table"))
              (fun _ : str =>
                 @Raise DataFrame (py "no such table: nonexistent_table"))
              (fun n : nat => inject_Z (Z.of_nat n)) true true
              (py "db") (py "db") (py "T1") (py "List it")
              (py "no such table: nonexistent_table")
              {| TestExec.store_calls := []; TestExec.clock_reads := 0 |}
              eq_refl eq_refl eq_refl)
    as [r [w' [E [_ [C [_ [N _]]]]]]].
  assert (D : py "no such table: nonexistent_table" <> []) by discriminate.
  destruct (N D) as [S M].
  exists r, w'; auto.
Defined.

(** X13: when neither path of the database file exists and the answer is
    not a clarification, the case is FAILED with the "Database not found"
    message, and nothing is sent to the store. *)
Theorem X13_case_without_database
    (system_prompt : str) (llm_invoke : list Message -> result str)
    (read_sql_query : str -> result DataFrame) (now : nat -> Q)
    (db_path_exists alt_db_path_exists : bool) (db_abspath alt_db_path : str)
    (tid q : str) (w : TestExec.World) :
  startswith (answer system_prompt llm_invoke q) CLARIFICATION_MARKER = false ->
  db_path_exists = false ->
  alt_db_path_exists = false ->
  exists r w',
    TestExec.execute_test_case system_prompt llm_invoke read_sql_query now
      db_path_exists alt_db_path_exists db_abspath alt_db_path tid q w
    = (Ret r, w')
    /\ TestExec.execution_status r = TestExec.FAILED
    /\ TestExec.error_message r
       = Some (py "Database not found at: " ++ db_abspath
               ++ py " or " ++ alt_db_path)
    /\ TestExec.result_count r = 0
    /\ TestExec.store_calls w' = TestExec.store_calls w.
Proof.
  intros H -> ->.
  rewrite (execute_sql_cases system_prompt llm_invoke read_sql_query now
             false false db_abspath alt_db_path tid q w H); cbv zeta.
  do 2 eexists; split; [reflexivity|]; simpl; auto.
Qed.

Lemma X13_case_without_database_witness :
  exists r w',
    TestExec.execute_test_case (py "schema")
      (fun _ : list Message => Ret (py "SELECT 1"))
      (fun _ : str => @Ret DataFrame [])
      (fun n : nat => inject_Z (Z.of_nat n)) false false (py "/a") (py "/b")
      (py "T1") (py "one")
      {| TestExec.store_calls := []; TestExec.clock_reads := 0 |}
    = (Ret r, w')
    /\ TestExec.execution_status r = TestExec.FAILED
    /\ TestExec.error_message r = Some (py "Database not found at: /a or /b")
    /\ TestExec.result_count r = 0
    /\ TestExec.store_calls w' = [].
Proof.
  exact (X13_case_without_database (py "schema")
           (fun _ : list Message => Ret (py "SELECT 1"))
           (fun _ : str => @Ret DataFrame [])
           (fun n : nat => inject_Z (Z.of_nat n)) false false (py "/a") (py "/b")
           (py "T1") (py "one")
           {| TestExec.store_calls := []; TestExec.clock_reads := 0 |}
           eq_refl eq_refl eq_refl).
Defined.

(** X14: every case reads the clock exactly twice, and its
    [execution_time] is the second reading minus the first, whatever the
    clock shows; it is not negative exactly when the second reading is not
    before the first. *)
Theorem X14_execution_time_of_a_case
    (system_prompt : str) (llm_invoke : list Message -> result str)
    (read_sql_query : str -> result DataFrame) (now : nat -> Q)
    (db_path_exists alt_db_path_exists : bool) (db_abspath alt_db_path : str)
    (tid q : str) (w : TestExec.World) :
  exists r w',
    TestExec.execute_test_case system_prompt llm_invoke read_sql_query now
      db_path_exists alt_db_path_exists db_abspath alt_db_path tid q w
    = (Ret r, w')
    /\ TestExec.clock_reads w' = TestExec.clock_reads w + 2
    /\ TestExec.execution_time r
       = (now (S (TestExec.clock_reads w)) - now (TestExec.clock_reads w))%Q
    /\ ((0 <= TestExec.execution_time r)%Q
        <-> (now (TestExec.clock_reads w)
             <= now (S (TestExec.clock_reads w)))%Q).
Proof.
  destruct (execute_test_case_shape system_prompt llm_invoke read_sql_query
              now db_path_exists alt_db_path_exists db_abspath alt_db_path
              tid q w) as [r [w' [E [_ [_ [T [C _]]]]]]].
  exists r, w'; split; [exact E|]; split; [exact C|]; split; [exact T|].
  rewrite T; unfold elapsed, Qminus.
  symmetry; apply Qle_minus_iff.
Qed.

Lemma X14_execution_time_of_a_case_witness :
  exists r w',
    TestExec.execute_test_case (py "schema")
      (fun _ : list Message => Ret (py "SELECT 1"))
      (fun _ : str => @Ret DataFrame [])
      (fun n : nat => inject_Z (5 - 2 * Z.of_nat n)) true true
      (py "db") (py "db") (py "T1") (py "one")
      {| TestExec.store_calls := []; TestExec.clock_reads := 0 |}
    = (Ret r, w')
    /\ TestExec.clock_reads w' = 2
    /\ ~ (0 <= TestExec.execution_time r)%Q.
Proof.
  destruct (X14_execution_time_of_a_case (py "schema")
              (fun _ : list Message => Ret (py "SELECT 1"))
              (fun _ : str => @Ret DataFrame [])
              (fun n : nat => inject_Z (5 - 2 * Z.of_nat n)) true true
              (py "db") (py "db") (py "T1") (py "one")
              {| TestExec.store_calls := []; TestExec.clock_reads := 0 |})
    as [r [w' [E [C [_ P]]]]].
  exists r, w'; split; [exact E|]; split; [exact C|].
  intros H; apply P in H; vm_compute in H; apply H; reflexivity.
Defined.

(** X15: a case keeps the identifier and the query it was given, and it
    sends at most one statement to the store; when it sends one, it is the
    [generated_sql] reported in the result. *)
Theorem X15_case_reports_what_it_sent
    (system_prompt : str) (llm_invoke : list Message -> result str)
    (read_sql_query : str -> result DataFrame) (now : nat -> Q)
    (db_path_exists alt_db_path_exists : bool) (db_abspath alt_db_path : str)
    (tid q : str) (w : TestExec.World) :
  exists r w',
    TestExec.execute_test_case system_prompt llm_invoke read_sql_query now
      db_path_exists alt_db_path_exists db_abspath alt_db_path tid q w
    = (Ret r, w')
    /\ TestExec.test_id r = tid
    /\ TestExec.query r = q
    /\ (TestExec.store_calls w' = TestExec.store_calls w
        \/ TestExec.store_calls w'
           = TestExec.store_calls w ++ [TestExec.generated_sql r]).
Proof.
  destruct (execute_test_case_shape system_prompt llm_invoke read_sql_query
              now db_path_exists alt_db_path_exists db_abspath alt_db_path
              tid q w) as [r [w' [E [I [U [_ [_ [S _]]]]]]]].
  exists r, w'; auto.
Qed.

(** ** The harness: the suite *)

Section Suite.

Variable system_prompt : str.
Variable llm_invoke : list Message -> result str.
Variable read_sql_query : str -> result DataFrame.
Variable now : nat -> Q.
Variables db_path_exists alt_db_path_exists : bool.
Variables db_abspath alt_db_path : str.

Let execute_all :=
  TestExec.execute_all system_prompt llm_invoke read_sql_query now
    db_path_exists alt_db_path_exists db_abspath alt_db_path.

Lemma execute_all_shape (cases : list (str * str)) :
  forall (acc : list TestExec.TestResult) (w : TestExec.World),
  exists rs w' qs,
    execute_all cases acc w = (Ret (acc ++ rs), w')
    /\ map TestExec.test_id rs = map fst cases
    /\ map TestExec.query rs = map snd cases
    /\ TestExec.clock_reads w' = TestExec.clock_reads w + 2 * List.length cases
    /\ TestExec.store_calls w' = TestExec.store_calls w ++ qs
    /\ List.length qs <= List.length cases
    /\ Forall known_status rs
    /\ Forall consistent rs.
Proof.
  induction cases as [|[tid q] rest IH]; intros acc w.
  - exists [], w, []; simpl; rewrite !app_nil_r.
    repeat split; auto; lia.
  - destruct (execute_test_case_shape system_prompt llm_invoke read_sql_query
                now db_path_exists alt_db_path_exists db_abspath alt_db_path
                tid q w) as [r [w1 [E [I [U [_ [C [St [K N]]]]]]]]].
    destruct (IH (acc ++ [r]) w1)
      as [rs [w' [qs [E' [I' [U' [C' [St' [L [K' N']]]]]]]]]].
    assert (Run : execute_all ((tid, q) :: rest) acc w
                  = (Ret (acc ++ r :: rs), w')).
    { unfold execute_all; simpl; unfold bind at 1; rewrite E.
      fold execute_all; rewrite E', <- app_assoc; reflexivity. }
    assert (Sent : exists qs', TestExec.store_calls w'
                               = TestExec.store_calls w ++ qs'
                               /\ List.length qs' <= Datatypes.S (List.length rest)).
    { destruct St as [St | St]; rewrite St' , St.
      - exists qs; split; [reflexivity | lia].
      - exists (TestExec.generated_sql r :: qs); split;
          [rewrite <- app_assoc; reflexivity | simpl; lia]. }
    destruct Sent as [qs' [Sq Lq]].
    exists (r :: rs), w', qs'; split; [exact Run|].
    simpl; rewrite I, U, I', U', C', C.
    repeat split; auto; lia.
Qed.

End Suite.

Lemma count_status_cons (status : str) (r : TestExec.TestResult)
    (rs : list TestExec.TestResult) :
  TestExec.count_status status (r :: rs)
  = (if str_eqb (TestExec.execution_status r) status then 1 else 0)
    + TestExec.count_status status rs.
Proof.
  unfold TestExec.count_status; simpl.
  destruct (str_eqb _ _); reflexivity.
Qed.

Lemma counts_partition (rs : list TestExec.TestResult) :
  Forall known_status rs ->
  TestExec.count_status TestExec.PASSED rs
  + TestExec.count_status TestExec.FAILED rs
  + TestExec.count_status TestExec.CLARIFICATION_REQUESTED rs
  = List.length rs.
Proof.
  induction 1 as [|r rs K _ IH]; [reflexivity|].
  rewrite !count_status_cons; simpl List.length.
  destruct K as [K | [K | K]]; rewrite K;
    change (str_eqb TestExec.PASSED TestExec.PASSED) with true;
    change (str_eqb TestExec.PASSED TestExec.FAILED) with false;
    change (str_eqb TestExec.PASSED TestExec.CLARIFICATION_REQUESTED) with false;
    change (str_eqb TestExec.FAILED TestExec.PASSED) with false;
    change (str_eqb TestExec.FAILED TestExec.FAILED) with true;
    change (str_eqb TestExec.FAILED TestExec.CLARIFICATION_REQUESTED) with false;
    change (str_eqb TestExec.CLARIFICATION_REQUESTED TestExec.PASSED) with false;
    change (str_eqb TestExec.CLARIFICATION_REQUESTED TestExec.FAILED) with false;
    change (str_eqb TestExec.CLARIFICATION_REQUESTED
              TestExec.CLARIFICATION_REQUESTED) with true;
    cbv iota; lia.
Qed.

Section SuiteRows.

Variable system_prompt : str.
Variable llm_invoke : list Message -> result str.
Variable read_sql_query : str -> result DataFrame.
Variable now : nat -> Q.
Variables db_path_exists alt_db_path_exists : bool.
Variables db_abspath alt_db_path : str.

Let execute_all :=
  TestExec.execute_all system_prompt llm_invoke read_sql_query now
    db_path_exists alt_db_path_exists db_abspath alt_db_path.
Let execute_rows :=
  TestExec.execute_rows system_prompt llm_invoke read_sql_query now
    db_path_exists alt_db_path_exists db_abspath alt_db_path.

(** Over rows whose queries are texts the loop on the sheet is the loop on
    the pairs of texts, and then goes on with the rows that follow. *)
Lemma execute_rows_text_prefix (pre : list (TestExec.Cell * TestExec.Cell)) :
  Forall text_query pre ->
  forall (rest : list (TestExec.Cell * TestExec.Cell))
         (acc : list TestExec.TestResult) (w : TestExec.World),
  execute_rows (pre ++ rest) acc w
  = bind (execute_all (map as_case pre) acc)
      (fun rs => execute_rows rest rs) w.
Proof.
  induction 1 as [|[idc qc] pre [q Hq] _ IH]; intros rest acc w.
  - reflexivity.
  - simpl in Hq; subst qc.
    unfold execute_rows, execute_all; simpl; fold execute_rows execute_all.
    unfold bind at 1 2 3.
    destruct (TestExec.execute_test_case _ _ _ _ _ _ _ _ _ _ w) as [[r|e] w1];
      [apply IH | reflexivity].
Qed.

End SuiteRows.

(** X16: when every query cell of the sheet is a text, the loop returns one
    result per row, in the order of the rows, each with the text of the
    identifier and the query of its row; it reads the clock twice per row
    and sends at most one statement per row to the store.  At the first
    row whose query cell is not a text the loop ends with the exception of
    the slice: the rows before it have been executed, and no result is
    returned. *)
Theorem X16_suite_on_the_rows_of_the_sheet
    (system_prompt : str) (llm_invoke : list Message -> result str)
    (read_sql_query : str -> result DataFrame) (now : nat -> Q)
    (db_path_exists alt_db_path_exists : bool) (db_abspath alt_db_path : str)
    (w : TestExec.World) :
  (forall rows,
      Forall text_query rows ->
      exists rs w' qs,
        TestExec.execute_rows system_prompt llm_invoke read_sql_query now
          db_path_exists alt_db_path_exists db_abspath alt_db_path rows [] w
        = (Ret rs, w')
        /\ map TestExec.test_id rs
           = map (fun row => TestExec.cell_str (fst row)) rows
        /\ map (fun r => TestExec.Text (TestExec.query r)) rs = map snd rows
        /\ TestExec.clock_reads w'
           = TestExec.clock_reads w + 2 * List.length rows
        /\ TestExec.store_calls w' = TestExec.store_calls w ++ qs
        /\ List.length qs <= List.length rows)
  /\ (forall pre id_cell as_str slice_error post,
         Forall text_query pre ->
         exists w',
           TestExec.execute_rows system_prompt llm_invoke read_sql_query now
             db_path_exists alt_db_path_exists db_abspath alt_db_path
             (pre ++ (id_cell, TestExec.NotText as_str slice_error) :: post)
             [] w
           = (Raise slice_error, w')
           /\ TestExec.clock_reads w'
              = TestExec.clock_reads w + 2 * List.length pre).
Proof.
  split.
  - intros rows T.
    destruct (execute_all_shape system_prompt llm_invoke read_sql_query now
                db_path_exists alt_db_path_exists db_abspath alt_db_path
                (map as_case rows) [] w)
      as [rs [w' [qs [E [I [U [C [St [L _]]]]]]]]].
    exists rs, w', qs.
    rewrite <- (app_nil_r rows) at 1.
    rewrite (execute_rows_text_prefix system_prompt llm_invoke read_sql_query
               now db_path_exists alt_db_path_exists db_abspath alt_db_path
               rows T [] [] w).
    unfold bind; rewrite E.
    rewrite length_map in C, L; rewrite map_map in I, U.
    split; [reflexivity|]; split; [exact I|]; split.
    + transitivity (map TestExec.Text (map TestExec.query rs));
        [symmetry; apply map_map|].
      rewrite U; clear - T.
      induction T as [|[idc qc] rows [q Hq] _ IH]; [reflexivity|].
      simpl in Hq; subst qc.
      change (TestExec.Text q :: map TestExec.Text
                (map (fun x => snd (as_case x)) rows)
              = TestExec.Text q :: map snd rows).
      f_equal; exact IH.
    + repeat split; assumption.
  - intros pre id_cell as_str slice_error post T.
    destruct (execute_all_shape system_prompt llm_invoke read_sql_query now
                db_path_exists alt_db_path_exists db_abspath alt_db_path
                (map as_case pre) [] w)
      as [rs [w' [qs [E [_ [_ [C _]]]]]]].
    exists w'.
    rewrite (execute_rows_text_prefix system_prompt llm_invoke read_sql_query
               now db_path_exists alt_db_path_exists db_abspath alt_db_path
               pre T _ [] w).
    unfold bind; rewrite E.
    rewrite length_map in C; split; [reflexivity | exact C].
Qed.

Lemma X16_suite_on_the_rows_of_the_sheet_witness :
  exists w',
    TestExec.execute_rows (py "schema")
      (fun _ : list Message => Ret (py "SELECT 1"))
      (fun _ : str => @Ret DataFrame [])
      (fun n : nat => inject_Z (Z.of_nat n)) true true (py "db") (py "db")
      [ (TestExec.NotText (py "1") (py "int"), TestExec.Text (py "one"));
        (TestExec.NotText (py "2") (py "int"),
         TestExec.NotText (py "nan")
           (py "'float' object is not subscriptable")) ]
      []
      {| TestExec.store_calls := []; TestExec.clock_reads := 0 |}
    = (Raise (py "'float' object is not subscriptable"), w')
    /\ TestExec.clock_reads w' = 2.
Proof.
  refine (proj2 (X16_suite_on_the_rows_of_the_sheet (py "schema")
                   (fun _ : list Message => Ret (py "SELECT 1"))
                   (fun _ : str => @Ret DataFrame [])
                   (fun n : nat => inject_Z (Z.of_nat n)) true true
                   (py "db") (py "db")
                   {| TestExec.store_calls := []; TestExec.clock_reads := 0 |})
            [ (TestExec.NotText (py "1") (py "int"),
               TestExec.Text (py "one")) ]
            (TestExec.NotText (py "2") (py "int")) (py "nan")
            (py "'float' object is not subscriptable") [] _).
  constructor; [exists (py "one"); reflexivity | constructor].
Defined.

(** X17: on the results of a suite every result satisfies the invariant of
    the data model, and the summary, which is returned without an
    exception, counts every case once: its total is the number of cases, and
    passed, failed and clarification requests add up to the total. *)
Theorem X17_suite_summary_counts_every_case
    (system_prompt : str) (llm_invoke : list Message -> result str)
    (read_sql_query : str -> result DataFrame) (now : nat -> Q)
    (db_path_exists alt_db_path_exists : bool) (db_abspath alt_db_path : str)
    (cases : list (str * str)) (w : TestExec.World) :
  exists rs w' s,
    TestExec.execute_all system_prompt llm_invoke read_sql_query now
      db_path_exists alt_db_path_exists db_abspath alt_db_path cases [] w
    = (Ret rs, w')
    /\ Forall consistent rs
    /\ TestExec.generate_summary_stats rs = Ret s
    /\ TestExec.total_tests s = List.length cases
    /\ TestExec.passed s + TestExec.failed s + TestExec.clarification_count s
       = TestExec.total_tests s.
Proof.
  destruct (execute_all_shape system_prompt llm_invoke read_sql_query now
              db_path_exists alt_db_path_exists db_abspath alt_db_path
              cases [] w) as [rs [w' [qs [E [I [_ [_ [_ [_ [K N]]]]]]]]]].
  destruct (summary_defined rs) as [s [D [T [P [F [C _]]]]]].
  exists rs, w', s; split; [exact E|]; split; [exact N|]; split; [exact D|].
  rewrite T, P, F, C; split.
  - rewrite <- (length_map TestExec.test_id), I, length_map; reflexivity.
  - apply counts_partition, K.
Qed.

(** X18: the connectivity check stops [main] before any test case: when the
    database file is not found, or the store raises on the check with a
    non-empty message, no case is executed, the clock is never read, and at
    most the statement of the check has been sent to the store. *)
Theorem X18_failed_connectivity_check_runs_nothing
    (system_prompt : str) (llm_invoke : list Message -> result str)
    (read_sql_query : str -> result DataFrame) (now : nat -> Q)
    (db_path_exists alt_db_path_exists : bool) (db_abspath alt_db_path : str)
    (cases : list (str * str)) (w : TestExec.World) :
  database_found db_path_exists alt_db_path_exists = false
  \/ (exists c e, read_sql_query TestExec.CONNECTIVITY_QUERY = Raise (c :: e)) ->
  exists w',
    TestExec.verify_and_execute system_prompt llm_invoke read_sql_query now
      db_path_exists alt_db_path_exists db_abspath alt_db_path cases w
    = (Ret None, w')
    /\ TestExec.clock_reads w' = TestExec.clock_reads w
    /\ (TestExec.store_calls w' = TestExec.store_calls w
        \/ TestExec.store_calls w'
           = TestExec.store_calls w ++ [TestExec.CONNECTIVITY_QUERY]).
Proof.
  intros H.
  unfold TestExec.verify_and_execute, bind at 1.
  rewrite run_query_cases.
  destruct (database_found db_path_exists alt_db_path_exists) eqn:F.
  - destruct H as [H | [c [e H]]]; [discriminate|].
    rewrite H; simpl.
    eexists; split; [reflexivity|]; simpl; auto.
  - eexists; split; [reflexivity|]; simpl; auto.
Qed.

Lemma X18_failed_connectivity_check_runs_nothing_witness :
  exists w',
    TestExec.verify_and_execute (py "schema")
      (fun _ : list Message => Ret (py "SELECT 1"))
      (fun _ : str => @Raise DataFrame (py "unable to open database file"))
      (fun n : nat => inject_Z (Z.of_nat n)) true true (py "db") (py "db")
      [(py "T1", py "one"); (py "T2", py "two")]
      {| TestExec.store_calls := []; TestExec.clock_reads := 0 |}
    = (Ret None, w')
    /\ TestExec.clock_reads w' = 0.
Proof.
  destruct (X18_failed_connectivity_check_runs_nothing (py "schema")
              (fun _ : list Message => Ret (py "SELECT 1"))
              (fun _ : str => @Raise DataFrame (py "unable to open database file"))
              (fun n : nat => inject_Z (Z.of_nat n)) true true
              (py "db") (py "db")
              [(py "T1", py "one"); (py "T2", py "two")]
              {| TestExec.store_calls := []; TestExec.clock_reads := 0 |}
              (or_intror (ex_intro _ _ (ex_intro _ _ eq_refl))))
    as [w' [E [C _]]].
  exists w'; auto.
Defined.

(** ** The ratings and the report *)

Lemma rank_reaches (rate : Q) (j : nat) :
  j <= 3 ->
  rank (TestExec.performance_category rate) <= j
  <-> (inject_Z (90 - 10 * Z.of_nat j) <= rate)%Q.
Proof.
  intros J; unfold TestExec.performance_category.
  destruct (Qle_bool 90 rate) eqn:H90;
    [apply Qle_bool_iff in H90
    | assert (N90 : ~ (90 <= rate)%Q)
        by (rewrite <- Qle_bool_iff, H90; discriminate);
      destruct (Qle_bool 80 rate) eqn:H80;
      [apply Qle_bool_iff in H80
      | assert (N80 : ~ (80 <= rate)%Q)
          by (rewrite <- Qle_bool_iff, H80; discriminate);
        destruct (Qle_bool 70 rate) eqn:H70;
        [apply Qle_bool_iff in H70
        | assert (N70 : ~ (70 <= rate)%Q)
            by (rewrite <- Qle_bool_iff, H70; discriminate);
          destruct (Qle_bool 60 rate) eqn:H60;
          [apply Qle_bool_iff in H60
          | assert (N60 : ~ (60 <= rate)%Q)
              by (rewrite <- Qle_bool_iff, H60; discriminate)]]]];
    destruct j as [|[|[|[|j]]]]; try lia; simpl rank;
    change (inject_Z (90 - 10 * Z.of_nat 0)) with 90%Q;
    change (inject_Z (90 - 10 * Z.of_nat 1)) with 80%Q;
    change (inject_Z (90 - 10 * Z.of_nat 2)) with 70%Q;
    change (inject_Z (90 - 10 * Z.of_nat 3)) with 60%Q;
    (split; intros X; [try lia; try lra | try lia; exfalso; lra]).
Qed.

(** X20: a higher pass rate never gets a worse rating; the rating printed
    by [main] and the indicator of the HTML report agree on every rate; the
    success rate is shown in green exactly for the two best ratings and in
    red exactly for the worst. *)
Theorem X20_ratings_are_ordered_and_agree (r1 r2 : Q) :
  ((r1 <= r2)%Q ->
   rank (TestExec.performance_category r2)
   <= rank (TestExec.performance_category r1))
  /\ TestExec.performance_indicator r1 = TestExec.performance_category r1
  /\ (TestExec.success_rate_color r1 = py "#28a745"
      <-> rank (TestExec.performance_category r1) <= 1)
  /\ (TestExec.success_rate_color r1 = py "#dc3545"
      <-> rank (TestExec.performance_category r1) = 4).
Proof.
  split; [|split; [reflexivity|]].
  - intros L.
    assert (B : rank (TestExec.performance_category r2) <= 4)
      by (destruct (TestExec.performance_category r2); simpl; lia).
    destruct (Nat.le_gt_cases (rank (TestExec.performance_category r1)) 3)
      as [J | J]; [|lia].
    apply (rank_reaches r2 _ J).
    apply (Qle_trans _ r1); [|exact L].
    apply (rank_reaches r1 _ J); lia.
  - pose proof (rank_reaches r1 1 ltac:(lia)) as R1.
    pose proof (rank_reaches r1 3 ltac:(lia)) as R3.
    change (inject_Z (90 - 10 * Z.of_nat 1)) with 80%Q in R1.
    change (inject_Z (90 - 10 * Z.of_nat 3)) with 60%Q in R3.
    rewrite <- Qle_bool_iff in R1, R3.
    assert (B : rank (TestExec.performance_category r1) <= 4)
      by (destruct (TestExec.performance_category r1); simpl; lia).
    unfold TestExec.success_rate_color.
    destruct (Qle_bool 80 r1); [|destruct (Qle_bool 60 r1)];
      split; split; intros X; try discriminate; try tauto;
      try (exfalso; destruct R1 as [R1a R1b]; destruct R3 as [R3a R3b];
           try (specialize (R1a X)); try (specialize (R1b eq_refl));
           try (specialize (R3b eq_refl)); try discriminate; lia).
    + destruct R3 as [R3a R3b].
      destruct (Nat.le_gt_cases (rank (TestExec.performance_category r1)) 3)
        as [J | J]; [specialize (R3a J); discriminate | lia].
Qed.

Lemma X20_ratings_are_ordered_and_agree_witness :
  rank (TestExec.performance_category 95) <= rank (TestExec.performance_category 65).
Proof.
  apply (proj1 (X20_ratings_are_ordered_and_agree 65 95)).
  unfold Qle; simpl; lia.
Defined.

(** X22: the SQL shown in the HTML table is the statement itself up to 150
    characters, and otherwise its first 150 characters followed by three
    dots, 153 characters in all; so a statement of 151 or 152 characters is
    shown longer than it is, and no other. *)
Theorem X22_truncate_sql_lengths (x : str) :
  firstn 150 (TestExec.truncate_sql x) = firstn 150 x
  /\ List.length (TestExec.truncate_sql x)
     = (if List.length x <=? 150 then List.length x else 153)
  /\ (List.length x <= 150 -> TestExec.truncate_sql x = x)
  /\ (List.length x < List.length (TestExec.truncate_sql x)
      <-> List.length x = 151 \/ List.length x = 152).
Proof.
  unfold TestExec.truncate_sql.
  destruct (Nat.ltb_spec 150 (List.length x)) as [L | L];
    destruct (Nat.leb_spec (List.length x) 150) as [L' | L']; try lia.
  - assert (F : List.length (firstn 150 x) = 150)
      by (rewrite length_firstn; lia).
    assert (T : List.length (firstn 150 x ++ py "...") = 153)
      by (rewrite length_app, F; reflexivity).
    repeat split; auto; try lia.
    rewrite firstn_app, firstn_firstn, F, Nat.sub_diag, Nat.min_id.
    rewrite firstn_O, app_nil_r; reflexivity.
  - repeat split; auto; lia.
Qed.
